(** * NetBox REST API view mixins (netbox/api/viewsets/mixins.py)

    A shallow embedding of the view mixins and of the Tenant serializers
    (tenancy/api/serializers.py).  A view method that touches the database is
    a state-and-exception computation over [Database]; [transaction.atomic]
    is the combinator that restores the database when its body raises.
    What the mixins call on [self] but do not define (the serializer
    machinery, [perform_create], [perform_update], [perform_destroy], the
    filter backends, ...) is a field of the [ViewClass] record. *)

From stdpp Require Import base option list strings gmap fin_maps.
From Stdlib Require Import ZArith Lia.

Set Default Proof Using "Type".
Set Warnings "-register-all,-clear-no-such-hyp".

(** ** Python and JSON values *)

Inductive json : Type :=
| JNull
| JBool (b : bool)
| JNum (n : Z)
| JStr (s : string)
| JArr (items : list json)
| JObj (members : list (string * json)).

(** [d.get(k)] on a dict kept as an association list with unique keys. *)
Fixpoint dict_get {V : Type} (k : string) (d : list (string * V)) : option V :=
  match d with
  | [] => None
  | (k', v) :: d' => if String.eqb k k' then Some v else dict_get k d'
  end.

(** The dict left behind by [d.pop(k)]. *)
Fixpoint dict_remove {V : Type} (k : string) (d : list (string * V)) : list (string * V) :=
  match d with
  | [] => []
  | (k', v) :: d' => if String.eqb k k' then dict_remove k d' else (k', v) :: dict_remove k d'
  end.

(** What [request.method == 'GET' and request.GET.get('brief')] can evaluate
    to: [False], [None] or a string. *)
Inductive pyvalue : Type :=
| PyFalse
| PyNone
| PyStr (s : string).

(** Python truth value, as tested by [if self.brief:]. *)
Definition truthy (v : pyvalue) : bool :=
  match v with
  | PyFalse => false
  | PyNone => false
  | PyStr s => negb (String.eqb s "")
  end.

(** ** Exceptions, requests and responses *)

Inductive exn : Type :=
| ValidationError (detail : string)
| ObjectDoesNotExist
| Http404
| UnboundLocalError (name : string)
| OtherError (msg : string).

(** A QueryDict, as the (key, value) pairs of the query string in order. *)
Definition QueryDict := list (string * string).

(** [key in request.GET] *)
Definition querydict_contains (k : string) (q : QueryDict) : bool :=
  existsb (λ kv, String.eqb k kv.1) q.

(** [request.GET.get(key)]: the last value given for the key, or [None]. *)
Definition querydict_get (k : string) (q : QueryDict) : option string :=
  last (omap (λ kv : string * string, if String.eqb k kv.1 then Some kv.2 else None) q).

Record Request := {
  method : string;
  GET : QueryDict;
  data : json;
}.

Definition HTTP_200_OK : Z := 200.
Definition HTTP_201_CREATED : Z := 201.
Definition HTTP_204_NO_CONTENT : Z := 204.

Record Response := {
  status : Z;
  content : option json;
  headers : list (string * string);
}.

(** ** Models, rows and the database *)

Record Model := {
  app_label : string;
  model_name : string;
  (** [hasattr(obj, 'snapshot')] for the instances of the model *)
  has_snapshot : bool;
}.

Definition ContentType : Type := string * string.

(** [ContentType.objects.get_for_model] *)
Definition get_for_model (m : Model) : ContentType := (app_label m, model_name m).

Record Instance := {
  pk : Z;
  attrs : list (string * json);
  prechange_snapshot : option (list (string * json));
}.

(** Modelled from the spec: [snapshot()] of the change-logging models is not
    in the sources at hand; it is "a pre-mutation capture of an object's
    state for change-tracking purposes", kept on the instance in memory. *)
Definition snapshot (obj : Instance) : Instance :=
  {| pk := pk obj; attrs := attrs obj; prechange_snapshot := Some (attrs obj) |}.

(** Modelled from the spec: the ExportTemplate model is not in the sources at
    hand; it is "a named template bound to the model's type". *)
Record ExportTemplate := {
  et_name : string;
  et_content_types : list ContentType;
  et_template_code : string;
}.

Record Database := {
  objects : list Instance;
  export_templates : list ExportTemplate;
}.

(** ** Querysets *)

Inductive Lookup : Type :=
| pk__in (ids : list Z)
| pk_exact (id : Z)
| restricted_to (p : Instance → bool).

Definition lookup_matches (obj : Instance) (l : Lookup) : bool :=
  match l with
  | pk__in ids => bool_decide (pk obj ∈ ids)
  | pk_exact id => bool_decide (pk obj = id)
  | restricted_to p => p obj
  end.

Record QuerySet := {
  model : Model;
  where_ : list Lookup;
  annotations : gmap string string;
  prefetch_related_lookups : list string;
}.

(** [qs.filter(...)]: a clone with one more condition. *)
Definition qs_filter (qs : QuerySet) (l : Lookup) : QuerySet :=
  {| model := model qs; where_ := where_ qs ++ [l];
     annotations := annotations qs;
     prefetch_related_lookups := prefetch_related_lookups qs |}.

(** [qs.query.annotations.pop(name)] *)
Definition annotations_pop (qs : QuerySet) (name : string) : QuerySet :=
  {| model := model qs; where_ := where_ qs;
     annotations := delete name (annotations qs);
     prefetch_related_lookups := prefetch_related_lookups qs |}.

(** [qs.prefetch_related] applied to its lookups: [prefetch_related(None)]
    clears the lookups, anything else appends to them. *)
Definition prefetch_related (qs : QuerySet) (lookups : list (option string)) : QuerySet :=
  {| model := model qs; where_ := where_ qs;
     annotations := annotations qs;
     prefetch_related_lookups :=
       match lookups with
       | [None] => []
       | _ => prefetch_related_lookups qs ++ omap id lookups
       end |}.

Definition qs_matches (qs : QuerySet) (obj : Instance) : bool :=
  forallb (lookup_matches obj) (where_ qs).

(** The rows a queryset yields when it is evaluated, in table order. *)
Definition qs_rows (qs : QuerySet) (db : Database) : list Instance :=
  filter (λ obj, qs_matches qs obj) (objects db).

(** ** Database computations and transactions *)

Definition M (A : Type) : Type := Database → (exn + A) * Database.

Definition ret {A} (a : A) : M A := λ db, (inr a, db).

Definition raise {A} (e : exn) : M A := λ db, (inl e, db).

Definition bind {A B} (m : M A) (k : A → M B) : M B :=
  λ db, match m db with
        | (inl e, db') => (inl e, db')
        | (inr a, db') => k a db'
        end.

(** The computations form a monad, written with stdpp's [x ← m; k]. *)
#[global] Instance M_ret : MRet M := @ret.
#[global] Instance M_bind : MBind M := λ A B k m, bind m k.

(** [with transaction.atomic():] and [@transaction.atomic]: the changes of
    the body are kept when it returns and undone when it raises; the
    exception goes on to the caller. *)
Definition atomic {A} (body : M A) : M A :=
  λ db, match body db with
        | (inl e, _) => (inl e, db)
        | (inr a, db') => (inr a, db')
        end.

(** [qs.count()] and [qs.exists()] *)
Definition qs_count (qs : QuerySet) : M nat := λ db, (inr (length (qs_rows qs db)), db).
Definition qs_exists (qs : QuerySet) : M bool :=
  λ db, (inr (match qs_rows qs db with [] => false | _ => true end), db).

(** Iterating a queryset: the rows are fetched when the loop starts. *)
Definition qs_iter (qs : QuerySet) : M (list Instance) := λ db, (inr (qs_rows qs db), db).

(** [for x in xs: acc = body(acc, x)] *)
Fixpoint for_each {A S : Type} (xs : list A) (acc : S) (body : S → A → M S) : M S :=
  match xs with
  | [] => ret acc
  | x :: xs' => acc' ← body acc x; for_each xs' acc' body
  end.

(** A pure step that may raise. *)
Definition lift {A} (r : exn + A) : M A :=
  match r with
  | inl e => raise e
  | inr a => ret a
  end.

(** ** Serializers *)

Record SerializerClass := {
  serializer_name : string;
  Meta_model : Model;
  Meta_fields : list string;
}.

(** The keys of [serializer_class().fields], which are also the keys of the
    representation the serializer produces. *)
Definition fields (sc : SerializerClass) : gset string := list_to_set (Meta_fields sc).

(** A serializer object, as built by [get_serializer(instance, data=..., partial=...)].
    [initial_data = None] is Python's [data=None]. *)
Record Serializer := {
  serializer_cls : SerializerClass;
  instance : option Instance;
  initial_data : option json;
  partial : bool;
}.

Definition Tenant : Model :=
  {| app_label := "tenancy"; model_name := "tenant"; has_snapshot := true |}.

Definition TenantGroup : Model :=
  {| app_label := "tenancy"; model_name := "tenantgroup"; has_snapshot := true |}.

Definition TenantGroupSerializer : SerializerClass :=
  {| serializer_name := "TenantGroupSerializer";
     Meta_model := TenantGroup;
     Meta_fields := [
       "id"; "url"; "name"; "slug"; "parent"; "description"; "custom_fields"; "created"; "last_updated";
       "tenant_count"; "_depth"
     ] |}.

Definition TenantSerializer : SerializerClass :=
  {| serializer_name := "TenantSerializer";
     Meta_model := Tenant;
     Meta_fields := [
       "id"; "url"; "name"; "slug"; "group"; "description"; "comments"; "tags"; "custom_fields"; "created";
       "last_updated"; "circuit_count"; "device_count"; "ipaddress_count"; "prefix_count"; "rack_count";
       "site_count"; "virtualmachine_count"; "vlan_count"; "vrf_count"; "cluster_count"
     ] |}.

(** Modelled from the spec: netbox.constants is not in the sources at hand;
    the prefix names the "lighter nested variant" of a serializer. *)
Definition NESTED_SERIALIZER_PREFIX : string := "Nested".

(** ** The view *)

(** The class attributes of a view and the methods the mixins call on [self]
    or on [super()] without defining them. *)
Record ViewClass := {
  queryset : QuerySet;
  serializer_class : SerializerClass;
  brief_prefetch_fields : list string;
  (** [utilities.api.get_serializer_for_model]; [None] is SerializerNotFound *)
  get_serializer_for_model : Model → string → option SerializerClass;
  (** [serializer.is_valid(raise_exception=True)] *)
  is_valid : Serializer → M Serializer;
  perform_create : Serializer → M Serializer;
  perform_update : Serializer → M Serializer;
  perform_destroy : Instance → M unit;
  (** [serializer.data] *)
  serializer_data : Serializer → json;
  get_success_headers : json → list (string * string);
  filter_queryset : QuerySet → QuerySet;
  (** [et.render_to_response(queryset)] *)
  render_to_response : ExportTemplate → QuerySet → M Response;
  (** [super().list] and [super().create] *)
  super_list : Request → M Response;
  super_create : Request → M Response;
}.

(** A view object: its class and the instance attribute [brief]. *)
Record ViewSet := {
  view_class : ViewClass;
  brief : pyvalue;
}.

Coercion view_class : ViewSet >-> ViewClass.

(** A fresh view object; [brief = False] is the class default. *)
Definition as_view (c : ViewClass) : ViewSet := {| view_class := c; brief := PyFalse |}.

Module BriefModeMixin.

Definition initialize_request (self : ViewSet) (request : Request) : ViewSet :=
  {| view_class := view_class self;
     brief :=
       if String.eqb (method request) "GET" then
         match querydict_get "brief" (GET request) with
         | Some v => PyStr v
         | None => PyNone
         end
       else PyFalse |}.

Definition get_serializer_class (self : ViewSet) : SerializerClass :=
  if truthy (brief self) then
    match get_serializer_for_model self (model (queryset self)) NESTED_SERIALIZER_PREFIX with
    | Some nested => nested
    | None => serializer_class self
    end
  else serializer_class self.

(** [list(qs.query.annotations.keys())] *)
Definition annotation_keys (qs : QuerySet) : list string :=
  (map_to_list (annotations qs)).*1.

(** [super().get_queryset()] is the one of the generic view: a clone of
    [self.queryset]. *)
Definition get_queryset (self : ViewSet) : QuerySet :=
  let qs := queryset self in
  if truthy (brief self) then
    let serializer_class := get_serializer_class self in
    let qs :=
      foldl (λ qs annotation,
               if bool_decide (annotation ∉ fields serializer_class)
               then annotations_pop qs annotation
               else qs)
            qs (annotation_keys qs) in
    prefetch_related (prefetch_related qs [None]) (Some <$> brief_prefetch_fields self)
  else qs.

End BriefModeMixin.

(** [self.get_serializer(instance, data=data, partial=partial)] of the
    generic view: an object of [self.get_serializer_class()]. *)
Definition get_serializer (self : ViewSet) (obj : option Instance) (d : option json)
    (partial : bool) : Serializer :=
  {| serializer_cls := BriefModeMixin.get_serializer_class self;
     instance := obj; initial_data := d; partial := partial |}.

Module ExportTemplatesMixin.

(** [ExportTemplate.objects.filter(content_types=ct, name=name).first()] *)
Definition first_export_template (ct : ContentType) (name : string) : M (option ExportTemplate) :=
  λ db, (inr (head (filter (λ et, ct ∈ et_content_types et ∧ et_name et = name)
                           (export_templates db))), db).

Definition list (self : ViewSet) (request : Request) : M Response :=
  if querydict_contains "export" (GET request) then
    let content_type := get_for_model (Meta_model (BriefModeMixin.get_serializer_class self)) in
    match querydict_get "export" (GET request) with
    | None => raise (OtherError "MultiValueDictKeyError")
    | Some name =>
        et ← first_export_template content_type name;
        match et with
        | None => raise Http404
        | Some et =>
            let queryset := filter_queryset self (BriefModeMixin.get_queryset self) in
            render_to_response self et queryset
        end
    end
  else super_list self request.

End ExportTemplatesMixin.

Module SequentialBulkCreatesMixin.

(** One turn of the loop: the loop state is the local [serializer]
    ([None] while unbound) and [return_data]. *)
Definition create_one (self : ViewSet) (st : option Serializer * list json) (d : json)
    : M (option Serializer * list json) :=
  serializer ← is_valid self (get_serializer self None (Some d) false);
  serializer ← perform_create self serializer;
  ret (Some serializer, st.2 ++ [serializer_data self serializer]).

Definition create (self : ViewSet) (request : Request) : M Response :=
  atomic
    match data request with
    | JArr items =>
        st ← for_each items (None, []) (create_one self);
        match st.1 with
        | None => raise (UnboundLocalError "serializer")
        | Some serializer =>
            let headers := get_success_headers self (serializer_data self serializer) in
            ret {| status := HTTP_201_CREATED; content := Some (JArr st.2); headers := headers |}
        end
    | _ => super_create self request
    end.

End SequentialBulkCreatesMixin.

(** Modelled from the spec: BulkOperationSerializer (netbox.api.serializers)
    is not in the sources at hand; with [many=True] it "validates a list of
    {id, …fields} payloads", "each specifying the numeric ID" of an object.
    The result is the list [[o['id'] for o in serializer.data]]. *)
Fixpoint bulk_operation_ids_of (items : list json) : exn + list Z :=
  match items with
  | [] => inr []
  | JObj d :: items' =>
      match dict_get "id" d with
      | Some (JNum n) =>
          match bulk_operation_ids_of items' with
          | inr ids => inr (n :: ids)
          | inl e => inl e
          end
      | Some _ => inl (ValidationError "id: A valid integer is required.")
      | None => inl (ValidationError "id: This field is required.")
      end
  | _ :: _ => inl (ValidationError "Invalid data. Expected a dictionary.")
  end.

Definition BulkOperationSerializer (d : json) : exn + list Z :=
  match d with
  | JArr items => bulk_operation_ids_of items
  | _ => inl (ValidationError "Expected a list of items.")
  end.

Module BulkUpdateModelMixin.

Definition get_bulk_update_queryset (self : ViewSet) : QuerySet :=
  BriefModeMixin.get_queryset self.

(** [{obj.pop('id'): obj for obj in request.data}]: a later item replaces
    an earlier one with the same id. *)
Fixpoint update_data_of (items : list json) (acc : gmap Z json) : exn + gmap Z json :=
  match items with
  | [] => inr acc
  | JObj d :: items' =>
      match dict_get "id" d with
      | Some (JNum n) => update_data_of items' (<[n := JObj (dict_remove "id" d)]> acc)
      | _ => inl (OtherError "KeyError: 'id'")
      end
  | _ :: _ => inl (OtherError "TypeError")
  end.

Definition map_update_data (d : json) : exn + gmap Z json :=
  match d with
  | JArr items => update_data_of items ∅
  | _ => inl (OtherError "TypeError")
  end.

(** One turn of the loop of [perform_bulk_update]. *)
Definition update_one (self : ViewSet) (objects : QuerySet) (update_data : gmap Z json)
    (partial : bool) (data_list : list json) (obj : Instance) : M (list json) :=
  let data := update_data !! pk obj in
  let obj := if has_snapshot (model objects) then snapshot obj else obj in
  serializer ← is_valid self (get_serializer self (Some obj) data partial);
  serializer ← perform_update self serializer;
  ret (data_list ++ [serializer_data self serializer]).

Definition perform_bulk_update (self : ViewSet) (objects : QuerySet)
    (update_data : gmap Z json) (partial : bool) : M (list json) :=
  atomic (
    rows ← qs_iter objects;
    for_each rows [] (update_one self objects update_data partial)).

Definition bulk_update (self : ViewSet) (request : Request) (partial : bool) : M Response :=
  ids ← lift (BulkOperationSerializer (data request));
  let qs := qs_filter (get_bulk_update_queryset self) (pk__in ids) in
  update_data ← lift (map_update_data (data request));
  data ← perform_bulk_update self qs update_data partial;
  ret {| status := HTTP_200_OK; content := Some (JArr data); headers := [] |}.

Definition bulk_partial_update (self : ViewSet) (request : Request) : M Response :=
  bulk_update self request true.

End BulkUpdateModelMixin.

Module BulkDestroyModelMixin.

Definition get_bulk_destroy_queryset (self : ViewSet) : QuerySet :=
  BriefModeMixin.get_queryset self.

(** One turn of the loop of [perform_bulk_destroy]. *)
Definition destroy_one (self : ViewSet) (objects : QuerySet) (_ : unit) (obj : Instance)
    : M unit :=
  let obj := if has_snapshot (model objects) then snapshot obj else obj in
  perform_destroy self obj.

Definition perform_bulk_destroy (self : ViewSet) (objects : QuerySet) : M unit :=
  atomic (
    rows ← qs_iter objects;
    for_each rows () (destroy_one self objects)).

Definition bulk_destroy (self : ViewSet) (request : Request) : M Response :=
  ids ← lift (BulkOperationSerializer (data request));
  let qs := qs_filter (get_bulk_destroy_queryset self) (pk__in ids) in
  _ ← perform_bulk_destroy self qs;
  ret {| status := HTTP_204_NO_CONTENT; content := None; headers := [] |}.

End BulkDestroyModelMixin.

Module ObjectValidationMixin.

(** The argument is one instance or a list of instances
    ([type(instance) is list]). *)
Definition _validate_objects (self : ViewSet) (instance : Instance + list Instance) : M unit :=
  match instance with
  | inr instances =>
      conforming_count ← qs_count (qs_filter (queryset self) (pk__in (pk <$> instances)));
      if bool_decide (conforming_count ≠ length instances)
      then raise ObjectDoesNotExist
      else ret ()
  | inl obj =>
      found ← qs_exists (qs_filter (queryset self) (pk_exact (pk obj)));
      if negb found then raise ObjectDoesNotExist else ret ()
  end.

End ObjectValidationMixin.

(** The bulk requests a list endpoint receives: PUT and PATCH go to
    [bulk_update] and [bulk_partial_update], DELETE to [bulk_destroy]. *)
Inductive BulkRequest : Type :=
| BulkPut (request : Request)
| BulkPatch (request : Request)
| BulkDelete (request : Request).

Definition dispatch_bulk (self : ViewSet) (rq : BulkRequest) : M Response :=
  match rq with
  | BulkPut request => BulkUpdateModelMixin.bulk_update self request false
  | BulkPatch request => BulkUpdateModelMixin.bulk_partial_update self request
  | BulkDelete request => BulkDestroyModelMixin.bulk_destroy self request
  end.

(** ** Notions the properties are stated with *)

(** The ["id"] member of a serialized representation. *)
Definition rep_id (r : json) : option Z :=
  match r with
  | JObj d => match dict_get "id" d with Some (JNum n) => Some n | _ => None end
  | _ => None
  end.

(** The representations a response carries. *)
Definition representations (r : Response) : list json :=
  match content r with
  | Some (JArr reps) => reps
  | _ => []
  end.

(** An object is matched by a queryset when a row the queryset yields has
    its primary key. *)
Definition matched (qs : QuerySet) (db : Database) (id : Z) : Prop :=
  id ∈ pk <$> qs_rows qs db.

#[global] Instance matched_dec qs db id : Decision (matched qs db id) :=
  decide (id ∈ pk <$> qs_rows qs db).

(** The primary key identifies a row of the table. *)
Definition pk_unique (db : Database) : Prop := NoDup (pk <$> objects db).

(** The serializer machinery of a view reports primary keys: the data of a
    serializer that was validated and saved for an object carries the pk of
    that object under ["id"]. *)
Definition update_reports_pk (self : ViewSet) : Prop :=
  ∀ obj d p ser1 ser2 db db1 db2,
    is_valid self (get_serializer self (Some obj) d p) db = (inr ser1, db1) →
    perform_update self ser1 db1 = (inr ser2, db2) →
    rep_id (serializer_data self ser2) = Some (pk obj).

(** A bulk payload without the items whose id no row of the queryset has. *)
Definition keeps (qs : QuerySet) (db : Database) (item : json) : bool :=
  match rep_id item with
  | Some n => bool_decide (matched qs db n)
  | None => true
  end.

Definition drop_unmatched (qs : QuerySet) (db : Database) (request : Request) : Request :=
  {| method := method request; GET := GET request;
     data := match data request with
             | JArr items => JArr (filter (λ item, keeps qs db item) items)
             | d => d
             end |}.

(** The payloads are created one after the other, each validated and saved
    in the database its predecessors left, and represented in that order. *)
Inductive creates_in_order (self : ViewSet) : Database → list json → list json → Database → Prop :=
| creates_nil db : creates_in_order self db [] [] db
| creates_cons db d items ser1 db1 ser2 db2 reps db' :
    is_valid self (get_serializer self None (Some d) false) db = (inr ser1, db1) →
    perform_create self ser1 db1 = (inr ser2, db2) →
    creates_in_order self db2 items reps db' →
    creates_in_order self db (d :: items) (serializer_data self ser2 :: reps) db'.

(** ** A concrete view: tenants with a unique slug *)

Module TenantView.

(** A stand-in for the nested tenant serializer of the example view:
    tenancy/api/nested_serializers.py is not in the sources at hand and its
    field list is an example, like the rest of this view; no property of the
    mixins is drawn from it. *)
Definition NestedTenantSerializer : SerializerClass :=
  {| serializer_name := "NestedTenantSerializer";
     Meta_model := Tenant;
     Meta_fields := ["id"; "url"; "name"; "slug"] |}.

Definition registry (m : Model) (prefix : string) : option SerializerClass :=
  if String.eqb (model_name m) "tenant" && String.eqb prefix "Nested"
  then Some NestedTenantSerializer else None.


Definition slug_taken (db : Database) (slug : string) (self_pk : option Z) : bool :=
  existsb (λ o, match dict_get "slug" (attrs o) with
                | Some (JStr s) => String.eqb s slug && negb (bool_decide (Some (pk o) = self_pk))
                | _ => false
                end) (objects db).

Definition tenant_is_valid (ser : Serializer) : M Serializer :=
  λ db,
    match initial_data ser with
    | Some (JObj d) =>
        match dict_get "slug" d with
        | Some (JStr s) =>
            if slug_taken db s (pk <$> instance ser)
            then (inl (ValidationError "slug: tenant with this slug already exists."), db)
            else (inr ser, db)
        | Some _ => (inl (ValidationError "slug: Not a valid string."), db)
        | None =>
            if partial ser then (inr ser, db)
            else (inl (ValidationError "slug: This field is required."), db)
        end
    | Some _ => (inl (ValidationError "Invalid data. Expected a dictionary."), db)
    | None => (inl (ValidationError "This field may not be null."), db)
    end.

Definition next_pk (db : Database) : Z :=
  (1 + foldr (λ o acc, Z.max (pk o) acc) 0 (objects db))%Z.

Definition with_instance (ser : Serializer) (obj : Instance) : Serializer :=
  {| serializer_cls := serializer_cls ser; instance := Some obj;
     initial_data := initial_data ser; partial := partial ser |}.

Definition tenant_perform_create (ser : Serializer) : M Serializer :=
  λ db,
    match initial_data ser with
    | Some (JObj d) =>
        let obj := {| pk := next_pk db; attrs := d; prechange_snapshot := None |} in
        (inr (with_instance ser obj),
         {| objects := objects db ++ [obj]; export_templates := export_templates db |})
    | _ => (inl (OtherError "AssertionError"), db)
    end.

(** [dict.update]: the members of [d] replace those of the same name. *)
Definition dict_update (old d : list (string * json)) : list (string * json) :=
  foldl (λ acc kv, (kv.1, kv.2) :: dict_remove kv.1 acc) old d.

Definition tenant_perform_update (ser : Serializer) : M Serializer :=
  λ db,
    match instance ser, initial_data ser with
    | Some obj, Some (JObj d) =>
        let obj' := {| pk := pk obj; attrs := dict_update (attrs obj) d;
                       prechange_snapshot := prechange_snapshot obj |} in
        let row := {| pk := pk obj; attrs := attrs obj'; prechange_snapshot := None |} in
        (inr (with_instance ser obj'),
         {| objects := (λ o, if bool_decide (pk o = pk obj) then row else o) <$> objects db;
            export_templates := export_templates db |})
    | _, _ => (inl (OtherError "AssertionError"), db)
    end.

Definition tenant_perform_destroy (obj : Instance) : M unit :=
  λ db, (inr (), {| objects := filter (λ o, pk o ≠ pk obj) (objects db);
                    export_templates := export_templates db |}).

Definition tenant_serializer_data (ser : Serializer) : json :=
  match instance ser with
  | Some obj => JObj (("id", JNum (pk obj)) :: attrs obj)
  | None => JNull
  end.

Definition tenant_get_success_headers (d : json) : list (string * string) :=
  match d with
  | JObj members =>
      match dict_get "url" members with
      | Some (JStr u) => [("Location", u)]
      | _ => []
      end
  | _ => []
  end.

Definition tenant_render_to_response (et : ExportTemplate) (qs : QuerySet) : M Response :=
  λ db, (inr {| status := HTTP_200_OK; content := Some (JStr (et_template_code et));
                headers := [("Content-Type", "text/plain")] |}, db).

Definition tenant_super_list (qs : QuerySet) (request : Request) : M Response :=
  λ db, (inr {| status := HTTP_200_OK;
                content := Some (JArr ((λ o, JObj (("id", JNum (pk o)) :: attrs o)) <$> qs_rows qs db));
                headers := [] |}, db).

Definition tenant_super_create (cls : SerializerClass) (request : Request) : M Response :=
  ser ← tenant_is_valid {| serializer_cls := cls; instance := None;
                    initial_data := Some (data request); partial := false |};
  ser ← tenant_perform_create ser;
  ret {| status := HTTP_201_CREATED; content := Some (tenant_serializer_data ser);
         headers := tenant_get_success_headers (tenant_serializer_data ser) |}.

Definition tenants : QuerySet :=
  {| model := Tenant; where_ := [];
     annotations := {[ "device_count" := "Count(devices)"; "site_count" := "Count(sites)";
                       "name" := "Lower(name)" ]};
     prefetch_related_lookups := ["group"; "tags"] |}.

Definition view_class_with (qs : QuerySet)
    (reg : Model → string → option SerializerClass) : ViewClass :=
  {| queryset := qs;
     serializer_class := TenantSerializer;
     brief_prefetch_fields := ["group"];
     get_serializer_for_model := reg;
     is_valid := tenant_is_valid;
     perform_create := tenant_perform_create;
     perform_update := tenant_perform_update;
     perform_destroy := tenant_perform_destroy;
     serializer_data := tenant_serializer_data;
     get_success_headers := tenant_get_success_headers;
     filter_queryset := id;
     render_to_response := tenant_render_to_response;
     super_list := tenant_super_list qs;
     super_create := tenant_super_create TenantSerializer |}.

Definition view : ViewSet := as_view (view_class_with tenants registry).


(** The same view for a caller whose permissions only cover tenant 1. *)
Definition restricted_view : ViewSet :=
  as_view (view_class_with
             {| model := Tenant; where_ := [restricted_to (λ o, bool_decide (pk o = 1%Z))];
                annotations := ∅; prefetch_related_lookups := [] |} registry).

Definition tenant (id : Z) (name slug : string) : Instance :=
  {| pk := id; attrs := [("name", JStr name); ("slug", JStr slug)];
     prechange_snapshot := None |}.

Definition db0 : Database :=
  {| objects := [tenant 1 "Acme" "acme"; tenant 2 "Initech" "initech"];
     export_templates := [
       {| et_name := "csv"; et_content_types := [("tenancy", "tenant")];
          et_template_code := "name,slug" |};
       {| et_name := "racks"; et_content_types := [("dcim", "rack")];
          et_template_code := "rack" |} ] |}.

Definition request (m : string) (q : QueryDict) (d : json) : Request :=
  {| method := m; GET := q; data := d |}.

Definition payload (id : Z) (members : list (string * json)) : json :=
  JObj (("id", JNum id) :: members).

End TenantView.


(** ** Requests used as examples *)

(** Two tenants created by one POST; the second is checked against a table
    that already holds the first. *)
Definition two_tenants : list json :=
  [JObj [("name", JStr "Hooli"); ("slug", JStr "hooli")];
   JObj [("name", JStr "Pied Piper"); ("slug", JStr "piedpiper")]].

Definition db_after_two_tenants : Database :=
  {| objects := objects TenantView.db0 ++
                [TenantView.tenant 3 "Hooli" "hooli"; TenantView.tenant 4 "Pied Piper" "piedpiper"];
     export_templates := export_templates TenantView.db0 |}.

(** A PATCH whose first item is fine and whose second item asks for a slug
    the first item has just taken. *)
Definition clashing_patch : Request :=
  TenantView.request "PATCH" []
    (JArr [TenantView.payload 1 [("slug", JStr "umbrella")];
           TenantView.payload 2 [("slug", JStr "umbrella")]]).

(** A PATCH naming tenants 1 and 2 in table order. *)
Definition rename_both : Request :=
  TenantView.request "PATCH" []
    (JArr [TenantView.payload 1 [("name", JStr "Acme Corp")];
           TenantView.payload 2 [("name", JStr "Initech LLC")]]).

(** ** The custom-fields context *)

(** A value of the serializer context: an entry the generic view put there,
    or the queryset [content_type.custom_fields.all()]. *)
Inductive ContextValue : Type :=
| context_value (v : string)
| custom_fields_all (content_type : ContentType).

Module CustomFieldsMixin.

(** [hasattr_custom_fields] is [hasattr(model, 'custom_fields')] and
    [super_context] is the dict [super().get_serializer_context()] returns;
    [context.update] sets the one key it is given. *)
Definition get_serializer_context (hasattr_custom_fields : Model → bool)
    (super_context : gmap string ContextValue) (self : ViewSet) : gmap string ContextValue :=
  let context := super_context in
  if hasattr_custom_fields (model (queryset self)) then
    let content_type := get_for_model (model (queryset self)) in
    <["custom_fields" := custom_fields_all content_type]> context
  else context.

End CustomFieldsMixin.

(** ** The fields the tenancy serializers declare *)

Inductive kwarg : Type :=
| kw_bool (b : bool)
| kw_str (s : string).

(** A field assigned in the body of a serializer class: its name, the class
    of the field and the keyword arguments it is built with. *)
Record DeclaredField := {
  field_name : string;
  field_class : string;
  field_kwargs : list (string * kwarg);
}.

Definition TenantGroupSerializer_declared : list DeclaredField := [
  {| field_name := "url"; field_class := "HyperlinkedIdentityField";
     field_kwargs := [("view_name", kw_str "tenancy-api:tenantgroup-detail")] |};
  {| field_name := "parent"; field_class := "NestedTenantGroupSerializer";
     field_kwargs := [("required", kw_bool false); ("allow_null", kw_bool true)] |};
  {| field_name := "tenant_count"; field_class := "IntegerField";
     field_kwargs := [("read_only", kw_bool true)] |}
].

Definition count_field (name : string) : DeclaredField :=
  {| field_name := name; field_class := "IntegerField";
     field_kwargs := [("read_only", kw_bool true)] |}.

Definition TenantSerializer_declared : list DeclaredField := [
  {| field_name := "url"; field_class := "HyperlinkedIdentityField";
     field_kwargs := [("view_name", kw_str "tenancy-api:tenant-detail")] |};
  {| field_name := "group"; field_class := "NestedTenantGroupSerializer";
     field_kwargs := [("required", kw_bool false); ("allow_null", kw_bool true)] |};
  count_field "circuit_count";
  count_field "device_count";
  count_field "ipaddress_count";
  count_field "prefix_count";
  count_field "rack_count";
  count_field "site_count";
  count_field "virtualmachine_count";
  count_field "vlan_count";
  count_field "vrf_count";
  count_field "cluster_count"
].

(** [read_only=True] among the keyword arguments of a field. *)
Definition declared_read_only (f : DeclaredField) : bool :=
  match dict_get "read_only" (field_kwargs f) with
  | Some (kw_bool true) => true
  | _ => false
  end.

(** The names of the derived counts end in [_count]. *)
Definition is_count_field (name : string) : bool :=
  String.eqb (String.substring (String.length name - 6) 6 name) "_count".

(** ** Rows updated and destroyed in order *)

(** The object a turn of a bulk loop works on: the row, with its
    pre-change snapshot when the model takes snapshots. *)
Definition snapshotted (objects : QuerySet) (obj : Instance) : Instance :=
  if has_snapshot (model objects) then snapshot obj else obj.

(** The rows are validated and saved one after the other, each in the
    database its predecessors left, and represented in that order. *)
Inductive updates_in_order (self : ViewSet) (objects : QuerySet) (update_data : gmap Z json)
    (partial : bool) : Database → list Instance → list json → Database → Prop :=
| updates_nil db : updates_in_order self objects update_data partial db [] [] db
| updates_cons db obj rows ser1 db1 ser2 db2 reps db' :
    is_valid self (get_serializer self (Some (snapshotted objects obj))
                     (update_data !! pk obj) partial) db = (inr ser1, db1) →
    perform_update self ser1 db1 = (inr ser2, db2) →
    updates_in_order self objects update_data partial db2 rows reps db' →
    updates_in_order self objects update_data partial db (obj :: rows)
      (serializer_data self ser2 :: reps) db'.

(** The rows are destroyed one after the other. *)
Inductive destroys_in_order (self : ViewSet) (objects : QuerySet)
    : Database → list Instance → Database → Prop :=
| destroys_nil db : destroys_in_order self objects db [] db
| destroys_cons db obj rows db1 db' :
    perform_destroy self (snapshotted objects obj) db = (inr (), db1) →
    destroys_in_order self objects db1 rows db' →
    destroys_in_order self objects db (obj :: rows) db'.

(** The ids of the items of a bulk payload, in order. *)
Definition item_ids (items : list json) : list Z := omap rep_id items.

(** * Properties *)

(** ** Running computations *)

Lemma bind_run {A B} (m : M A) (k : A → M B) db :
  (m ≫= k) db = match m db with
                | (inl e, db') => (inl e, db')
                | (inr a, db') => k a db'
                end.
Proof. reflexivity. Qed.

Lemma bind_inr_inv {A B} (m : M A) (k : A → M B) db b db' :
  (m ≫= k) db = (inr b, db') →
  ∃ a db1, m db = (inr a, db1) ∧ k a db1 = (inr b, db').
Proof.
  rewrite bind_run. destruct (m db) as [[e|a] db1]; [discriminate|].
  intros Hk. by exists a, db1.
Qed.

Lemma bind_inl_inv {A B} (m : M A) (k : A → M B) db e db' :
  (m ≫= k) db = (inl e, db') →
  m db = (inl e, db') ∨ ∃ a db1, m db = (inr a, db1) ∧ k a db1 = (inl e, db').
Proof.
  rewrite bind_run. destruct (m db) as [[e1|a] db1].
  - intros [= -> ->]. by left.
  - intros Hk. right. by exists a, db1.
Qed.

Lemma lift_run {A} (r : exn + A) db : lift r db = (r, db).
Proof. by destruct r. Qed.

Lemma atomic_rolls_back {A} (body : M A) db e db' :
  atomic body db = (inl e, db') → db' = db.
Proof.
  unfold atomic. destruct (body db) as [[e1|a] db1]; by intros [= ].
Qed.

Lemma atomic_commits {A} (body : M A) db a db' :
  atomic body db = (inr a, db') ↔ body db = (inr a, db').
Proof.
  unfold atomic. destruct (body db) as [[e1|a1] db1]; split; by intros [= ]; simplify_eq.
Qed.

Lemma for_each_ext {A S} (xs : list A) (f g : S → A → M S) :
  (∀ acc x db, x ∈ xs → f acc x db = g acc x db) →
  ∀ acc db, for_each xs acc f db = for_each xs acc g db.
Proof.
  induction xs as [|x xs IH]; intros Hfg acc db; [done|].
  simpl. rewrite !bind_run, Hfg by left.
  destruct (g acc x db) as [[e|acc'] db1]; [done|].
  apply IH. intros acc0 y db0 Hy. apply Hfg. by right.
Qed.

(** ** Brief mode is switched on by any non-empty value *)

Lemma truthy_PyStr s : truthy (PyStr s) = true ↔ s ≠ "".
Proof.
  simpl. rewrite negb_true_iff. split.
  - intros H ->. by rewrite String.eqb_refl in H.
  - intros H. by apply String.eqb_neq.
Qed.

(** C10: after [initialize_request], brief mode is active exactly when the
    request is a GET whose [brief] parameter has a non-empty value; the values
    [false] and [0] activate it like any other, and a request of another
    method, or without the parameter, or with an empty one, does not. *)
Theorem brief_mode_activation (self : ViewSet) (request : Request) :
  (truthy (brief (BriefModeMixin.initialize_request self request)) = true ↔
     method request = "GET" ∧
     ∃ v, querydict_get "brief" (GET request) = Some v ∧ v ≠ "")
  ∧ (∀ d, truthy (brief (BriefModeMixin.initialize_request self
             {| method := "GET"; GET := [("brief", "false")]; data := d |})) = true)
  ∧ (∀ d, truthy (brief (BriefModeMixin.initialize_request self
             {| method := "GET"; GET := [("brief", "0")]; data := d |})) = true)
  ∧ (method request ≠ "GET" →
       brief (BriefModeMixin.initialize_request self request) = PyFalse)
  ∧ (method request = "GET" → querydict_get "brief" (GET request) = None →
       brief (BriefModeMixin.initialize_request self request) = PyNone)
  ∧ (method request = "GET" → querydict_get "brief" (GET request) = Some "" →
       truthy (brief (BriefModeMixin.initialize_request self request)) = false).
Proof.
  unfold BriefModeMixin.initialize_request; simpl.
  split; [split|split; [done|split; [done|split; [|split]]]].
  - destruct (String.eqb_spec (method request) "GET") as [Hm|Hm]; [|done].
    destruct (querydict_get "brief" (GET request)) as [v|]; [|done].
    intros Hv%truthy_PyStr. split; [done|]. by exists v.
  - intros [Hm (v & Hv & Hne)].
    apply String.eqb_eq in Hm. rewrite Hm, Hv. by apply truthy_PyStr.
  - intros Hm. by apply String.eqb_neq in Hm as ->.
  - intros Hm Hv. apply String.eqb_eq in Hm. by rewrite Hm, Hv.
  - intros Hm Hv. apply String.eqb_eq in Hm. by rewrite Hm, Hv.
Qed.

(** A GET with [brief=false] and a POST with [brief=true], on the tenant view. *)
Example brief_false_is_brief :
  truthy (brief (BriefModeMixin.initialize_request TenantView.view
            (TenantView.request "GET" [("brief", "false")] JNull))) = true
  ∧ brief (BriefModeMixin.initialize_request TenantView.view
            (TenantView.request "POST" [("brief", "true")] JNull)) = PyFalse
  ∧ brief (BriefModeMixin.initialize_request TenantView.view
            (TenantView.request "GET" [("brief", "1"); ("brief", "")] JNull)) = PyStr "".
Proof. by vm_compute. Qed.

(** ** Sequential bulk creation *)

Section sequential_create.
Context (self : ViewSet).

Local Abbreviation create_one := (SequentialBulkCreatesMixin.create_one self).

(** What the loop of [create] leaves in its two locals after a run that
    did not raise. *)
Lemma create_loop_inr items : ∀ st db st' db',
  for_each items st create_one db = (inr st', db') →
  ∃ reps, st'.2 = st.2 ++ reps
          ∧ creates_in_order self db items reps db'
          ∧ (items = [] → st'.1 = st.1)
          ∧ (items ≠ [] → is_Some st'.1).
Proof.
  induction items as [|d items IH]; intros st db st' db' Hrun.
  - simpl in Hrun. injection Hrun as <- <-. exists [].
    rewrite app_nil_r. repeat split; [constructor|done].
  - simpl in Hrun. apply bind_inr_inv in Hrun as (st1 & db1 & Hone & Hrest).
    unfold SequentialBulkCreatesMixin.create_one in Hone.
    apply bind_inr_inv in Hone as (ser1 & dbv & Hvalid & Hone).
    apply bind_inr_inv in Hone as (ser2 & dbc & Hcreate & Hone).
    injection Hone as <- <-.
    apply IH in Hrest as (reps & Hreps & Hord & Hnil & Hsome). simpl in *.
    exists (serializer_data self ser2 :: reps). split; [|split; [|split]].
    + by rewrite Hreps, <- app_assoc.
    + by econstructor.
    + done.
    + intros _. destruct items as [|d' items'].
      * rewrite Hnil by done. eauto.
      * by apply Hsome.
Qed.

(** The loop runs to its end when every creation succeeds in turn. *)
Lemma create_loop_complete items : ∀ st db reps db',
  creates_in_order self db items reps db' →
  ∃ last_serializer,
    for_each items st create_one db = (inr (last_serializer, st.2 ++ reps), db')
    ∧ (items ≠ [] → is_Some last_serializer).
Proof.
  induction items as [|d items IH]; intros st db reps db' Hord.
  - inversion Hord; subst. exists st.1. rewrite app_nil_r. by destruct st.
  - inversion Hord as [|? ? ? ser1 db1 ser2 db2 reps' ? Hvalid Hcreate Hrest]; subst.
    destruct (IH (Some ser2, st.2 ++ [serializer_data self ser2]) db2 reps' db' Hrest)
      as (l & Hrun & Hl).
    exists l. split.
    + simpl. rewrite bind_run.
      unfold SequentialBulkCreatesMixin.create_one at 1.
      rewrite bind_run, Hvalid, bind_run, Hcreate. simpl.
      rewrite Hrun. simpl. by rewrite <- app_assoc.
    + intros _. destruct items as [|d' items'].
      * simpl in Hrun. by injection Hrun as <- _.
      * by apply Hl.
Qed.

Lemma creates_in_order_length db items reps db' :
  creates_in_order self db items reps db' → length reps = length items.
Proof. induction 1; simpl; congruence. Qed.

(** C3: when the body of the POST is a JSON array, [create] validates and
    saves the payloads one at a time in list order, each in the database
    its predecessors left; the loop runs in one transaction, so a request
    that raises leaves the database as it was; a request that returns
    answers 201 with the representations of the created objects, one per
    payload and in input order, and a non-empty array whose creations all
    succeed in turn does return. *)
Theorem sequential_create_in_order (request : Request) (items : list json) (db : Database) :
  data request = JArr items →
  (∀ resp db',
     SequentialBulkCreatesMixin.create self request db = (inr resp, db') →
     status resp = HTTP_201_CREATED ∧
     ∃ reps, content resp = Some (JArr reps) ∧ length reps = length items
             ∧ creates_in_order self db items reps db')
  ∧ (∀ reps db',
       items ≠ [] → creates_in_order self db items reps db' →
       ∃ resp, SequentialBulkCreatesMixin.create self request db = (inr resp, db')
               ∧ status resp = HTTP_201_CREATED ∧ content resp = Some (JArr reps))
  ∧ (∀ e db',
       SequentialBulkCreatesMixin.create self request db = (inl e, db') → db' = db).
Proof.
  intros Hdata. unfold SequentialBulkCreatesMixin.create. rewrite Hdata.
  split; [|split].
  - intros resp db' Hrun. apply (proj1 (atomic_commits _ _ _ _)) in Hrun.
    apply bind_inr_inv in Hrun as (st & db1 & Hloop & Hend).
    apply create_loop_inr in Hloop as (reps & Hreps & Hord & _ & _).
    destruct st as [[serializer|] return_data]; simpl in *; [|discriminate].
    injection Hend as <- <-. subst return_data. simpl.
    split; [done|]. exists reps. split; [done|]. split; [|done].
    by eapply creates_in_order_length.
  - intros reps db' Hne Hord.
    destruct (create_loop_complete items (None, []) db reps db' Hord) as (l & Hrun & Hl).
    destruct (Hl Hne) as [serializer ->]. simpl in Hrun.
    eexists. split.
    { apply atomic_commits. rewrite bind_run, Hrun. reflexivity. }
    split; reflexivity.
  - intros e db' Hrun. by apply atomic_rolls_back in Hrun.
Qed.

(** C9: for the empty JSON array the loop body never runs, the local
    [serializer] is still unbound when the success headers are built, and
    [create] raises instead of answering 201 with an empty array. *)
Theorem create_empty_list_raises (m : string) (q : QueryDict) (db : Database) :
  let request := {| method := m; GET := q; data := JArr [] |} in
  SequentialBulkCreatesMixin.create self request db
    = (inl (UnboundLocalError "serializer"), db)
  ∧ ∀ resp db', SequentialBulkCreatesMixin.create self request db ≠ (inr resp, db').
Proof. split; [reflexivity|]. intros resp db'. discriminate. Qed.
End sequential_create.

Lemma sequential_create_in_order_witness :
  ∃ resp,
    SequentialBulkCreatesMixin.create TenantView.view
      (TenantView.request "POST" [] (JArr two_tenants)) TenantView.db0
    = (inr resp, db_after_two_tenants)
    ∧ status resp = HTTP_201_CREATED
    ∧ content resp = Some (JArr [JObj [("id", JNum 3); ("name", JStr "Hooli"); ("slug", JStr "hooli")];
                                 JObj [("id", JNum 4); ("name", JStr "Pied Piper");
                                       ("slug", JStr "piedpiper")]]).
Proof.
  refine (proj1 (proj2 (sequential_create_in_order TenantView.view
            (TenantView.request "POST" [] (JArr two_tenants)) two_tenants
            TenantView.db0 eq_refl)) _ _ _ _).
  - discriminate.
  - pose (ser := λ d, get_serializer TenantView.view None (Some d) false).
    pose (d1 := JObj [("name", JStr "Hooli"); ("slug", JStr "hooli")]).
    pose (d2 := JObj [("name", JStr "Pied Piper"); ("slug", JStr "piedpiper")]).
    pose (db1 := {| objects := objects TenantView.db0 ++ [TenantView.tenant 3 "Hooli" "hooli"];
                    export_templates := export_templates TenantView.db0 |}).
    refine (creates_cons TenantView.view TenantView.db0 d1 [d2]
              (ser d1) TenantView.db0
              (TenantView.with_instance (ser d1) (TenantView.tenant 3 "Hooli" "hooli")) db1
              _ _ eq_refl eq_refl _).
    refine (creates_cons TenantView.view db1 d2 []
              (ser d2) db1
              (TenantView.with_instance (ser d2) (TenantView.tenant 4 "Pied Piper" "piedpiper"))
              db_after_two_tenants
              _ _ eq_refl eq_refl _).
    apply creates_nil.
Defined.

(** The second payload repeats the slug of the first: its validation sees
    the first tenant, fails, and the first tenant is not kept. *)
Example sequential_create_sees_earlier_items :
  SequentialBulkCreatesMixin.create TenantView.view
    (TenantView.request "POST" []
       (JArr [JObj [("name", JStr "Hooli"); ("slug", JStr "hooli")];
              JObj [("name", JStr "Hooli 2"); ("slug", JStr "hooli")]])) TenantView.db0
  = (inl (ValidationError "slug: tenant with this slug already exists."), TenantView.db0).
Proof. reflexivity. Qed.

(** ** Bulk update and bulk destroy are all-or-nothing *)

Lemma perform_bulk_update_rolls_back self objects update_data partial db e db' :
  BulkUpdateModelMixin.perform_bulk_update self objects update_data partial db = (inl e, db') →
  db' = db.
Proof. apply atomic_rolls_back. Qed.

Lemma perform_bulk_destroy_rolls_back self objects db e db' :
  BulkDestroyModelMixin.perform_bulk_destroy self objects db = (inl e, db') → db' = db.
Proof. apply atomic_rolls_back. Qed.

Lemma bulk_update_rolls_back self request partial db e db' :
  BulkUpdateModelMixin.bulk_update self request partial db = (inl e, db') → db' = db.
Proof.
  unfold BulkUpdateModelMixin.bulk_update. intros Hrun.
  apply bind_inl_inv in Hrun as [Hids|(ids & db1 & Hids & Hrun)];
    rewrite lift_run in Hids; [by injection Hids|].
  injection Hids as _ <-.
  apply bind_inl_inv in Hrun as [Hmap|(update_data & db1 & Hmap & Hrun)];
    rewrite lift_run in Hmap; [by injection Hmap|].
  injection Hmap as _ <-.
  apply bind_inl_inv in Hrun as [Hloop|(rs & db1 & _ & Hret)]; [|discriminate].
  by apply perform_bulk_update_rolls_back in Hloop.
Qed.

Lemma bulk_destroy_rolls_back self request db e db' :
  BulkDestroyModelMixin.bulk_destroy self request db = (inl e, db') → db' = db.
Proof.
  unfold BulkDestroyModelMixin.bulk_destroy. intros Hrun.
  apply bind_inl_inv in Hrun as [Hids|(ids & db1 & Hids & Hrun)];
    rewrite lift_run in Hids; [by injection Hids|].
  injection Hids as _ <-.
  apply bind_inl_inv in Hrun as [Hloop|(rs & db1 & _ & Hret)]; [|discriminate].
  by apply perform_bulk_destroy_rolls_back in Hloop.
Qed.

(** C1: a bulk update, bulk partial update or bulk destroy that raises (a
    payload item that fails validation, or any other exception of the
    per-object loop) leaves the database exactly as it was before the
    request. *)
Theorem bulk_request_all_or_nothing (self : ViewSet) (rq : BulkRequest)
    (db : Database) (e : exn) (db' : Database) :
  dispatch_bulk self rq db = (inl e, db') → db' = db.
Proof.
  destruct rq as [request|request|request]; simpl.
  - apply bulk_update_rolls_back.
  - apply bulk_update_rolls_back.
  - apply bulk_destroy_rolls_back.
Qed.

Lemma bulk_request_all_or_nothing_witness :
  (dispatch_bulk TenantView.view (BulkPatch clashing_patch) TenantView.db0).2 = TenantView.db0.
Proof.
  apply (bulk_request_all_or_nothing TenantView.view (BulkPatch clashing_patch) TenantView.db0
           (ValidationError "slug: tenant with this slug already exists.")).
  vm_compute. reflexivity.
Defined.

(** Outside the transaction the same loop stops at the second item with the
    first tenant already renamed: the rollback is what restores it. *)
Example clashing_patch_without_transaction :
  ∃ db1,
    for_each (objects TenantView.db0) []
      (BulkUpdateModelMixin.update_one TenantView.view (queryset TenantView.view)
         {[ 1%Z := JObj [("slug", JStr "umbrella")]; 2%Z := JObj [("slug", JStr "umbrella")] ]}
         true) TenantView.db0
    = (inl (ValidationError "slug: tenant with this slug already exists."), db1)
    ∧ objects db1 ≠ objects TenantView.db0.
Proof. eexists. split; [vm_compute; reflexivity|]. discriminate. Qed.

(** ** Export templates *)

Lemma querydict_contains_get k (q : QueryDict) :
  querydict_contains k q = true → is_Some (querydict_get k q).
Proof.
  unfold querydict_contains, querydict_get. intros Hin.
  apply last_is_Some. induction q as [|kv q IH]; simpl in *; [done|].
  destruct (String.eqb k kv.1); simpl in *; [done|by apply IH].
Qed.

(** C5: on a list request with an [export] parameter, when no export
    template of the model's content type has the requested name the view
    raises Http404, and when one has, the answer is the filtered queryset
    rendered by such a template and not the standard list response. *)
Theorem export_template_or_404 (self : ViewSet) (request : Request) (db : Database) :
  querydict_contains "export" (GET request) = true →
  let content_type := get_for_model (Meta_model (BriefModeMixin.get_serializer_class self)) in
  let bound name et := content_type ∈ et_content_types et ∧ et_name et = name in
  ∃ name,
    querydict_get "export" (GET request) = Some name
    ∧ ((∀ et, et ∈ export_templates db → ¬ bound name et) →
         ExportTemplatesMixin.list self request db = (inl Http404, db))
    ∧ ((∃ et, et ∈ export_templates db ∧ bound name et) →
         ∃ et, et ∈ export_templates db ∧ bound name et
               ∧ ExportTemplatesMixin.list self request db
                 = render_to_response self et
                     (filter_queryset self (BriefModeMixin.get_queryset self)) db).
Proof.
  intros Hexport content_type bound.
  destruct (querydict_contains_get _ _ Hexport) as [name Hname].
  exists name. split; [done|].
  unfold ExportTemplatesMixin.list. rewrite Hexport, Hname, bind_run.
  unfold ExportTemplatesMixin.first_export_template.
  fold content_type.
  destruct (head (filter (λ et, content_type ∈ et_content_types et ∧ et_name et = name)
                    (export_templates db))) as [et|] eqn:Hhead.
  - apply head_Some_elem_of, list_elem_of_filter in Hhead as [Hbound Hin].
    split.
    + intros Hnone. by destruct (Hnone et Hin).
    + intros _. by exists et.
  - apply head_None in Hhead. split; [done|].
    intros (et & Hin & Hbound).
    by destruct (filter_nil_not_elem_of _ _ et Hhead Hbound).
Qed.

Lemma export_template_or_404_witness :
  ExportTemplatesMixin.list TenantView.view
    (TenantView.request "GET" [("export", "racks")] JNull) TenantView.db0
  = (inl Http404, TenantView.db0).
Proof.
  destruct (export_template_or_404 TenantView.view
              (TenantView.request "GET" [("export", "racks")] JNull) TenantView.db0 eq_refl)
    as (name & Hname & Hnone & _).
  injection Hname as <-.
  apply Hnone. intros et Het [Hct Hn].
  vm_compute in Het.
  apply list_elem_of_In in Het. simpl in Het.
  destruct Het as [<-|[<-|[]]]; vm_compute in Hct, Hn.
  - discriminate.
  - apply list_elem_of_In in Hct. simpl in Hct. destruct Hct as [[=]|[]].
Defined.

(** The template named [csv] is bound to tenants and renders the list. *)
Example export_csv_renders :
  ExportTemplatesMixin.list TenantView.view
    (TenantView.request "GET" [("export", "csv")] JNull) TenantView.db0
  = (inr {| status := 200; content := Some (JStr "name,slug");
            headers := [("Content-Type", "text/plain")] |}, TenantView.db0).
Proof. reflexivity. Qed.

(** ** Brief mode: the serializer and the queryset *)




Section clear_annotations.
Context (F : gset string).

Local Abbreviation clear := (λ (qs : QuerySet) (annotation : string),
  if bool_decide (annotation ∉ F) then annotations_pop qs annotation else qs).

Lemma clear_loop_frame keys : ∀ qs,
  model (foldl clear qs keys) = model qs
  ∧ where_ (foldl clear qs keys) = where_ qs
  ∧ prefetch_related_lookups (foldl clear qs keys) = prefetch_related_lookups qs.
Proof.
  induction keys as [|k keys IH]; intros qs; [done|].
  simpl. destruct (IH (clear qs k)) as (-> & -> & ->).
  by case_bool_decide.
Qed.

Lemma clear_loop_lookup keys : ∀ qs name,
  annotations (foldl clear qs keys) !! name
  = if decide (name ∈ keys ∧ name ∉ F) then None else annotations qs !! name.
Proof.
  induction keys as [|k keys IH]; intros qs name.
  - rewrite decide_False; [done|]. intros [H _]. by apply elem_of_nil in H.
  - change (foldl clear qs (k :: keys)) with (foldl clear (clear qs k) keys).
    rewrite IH. case_bool_decide as Hk.
    + destruct (decide (name = k)) as [->|Hne].
      * unfold annotations_pop; cbn [annotations]. rewrite lookup_delete_eq.
        rewrite (decide_True (P := k ∈ k :: keys ∧ k ∉ F)) by (split; [left|done]).
        by case_decide.
      * unfold annotations_pop; cbn [annotations]. rewrite lookup_delete_ne by done.
        apply decide_ext. rewrite elem_of_cons. naive_solver.
    + apply decide_ext. rewrite elem_of_cons. naive_solver.
Qed.
End clear_annotations.

Lemma omap_id_Some {A} (l : list A) : omap id (Some <$> l) = l.
Proof. induction l as [|x l IH]; [done|]. cbn. by rewrite IH. Qed.

(** [qs.prefetch_related(None).prefetch_related] of some lookups has those
    lookups and no other. *)
Lemma prefetch_related_only qs (l : list string) :
  prefetch_related_lookups (prefetch_related (prefetch_related qs [None]) (Some <$> l)) = l.
Proof.
  unfold prefetch_related; cbn [prefetch_related_lookups].
  destruct l as [|x l]; [done|].
  cbn. f_equal. apply omap_id_Some.
Qed.

(** C7: in brief mode [get_queryset] keeps an annotation exactly when its
    name is a field of the chosen serializer and drops every other one, the
    prefetches become the [brief_prefetch_fields] of the view and nothing
    else, and the model and the conditions of the queryset stay; outside
    brief mode the queryset comes back unchanged. *)
Theorem brief_queryset (self : ViewSet) :
  let qs := BriefModeMixin.get_queryset self in
  if truthy (brief self) then
    (∀ name,
       annotations qs !! name
       = if decide (name ∈ fields (BriefModeMixin.get_serializer_class self))
         then annotations (queryset self) !! name
         else None)
    ∧ prefetch_related_lookups qs = brief_prefetch_fields self
    ∧ model qs = model (queryset self)
    ∧ where_ qs = where_ (queryset self)
  else qs = queryset self.
Proof.
  intros qs. unfold BriefModeMixin.get_queryset in qs.
  destruct (truthy (brief self)) eqn:Hbrief; [|done].
  set (F := fields (BriefModeMixin.get_serializer_class self)) in *.
  set (keys := BriefModeMixin.annotation_keys (queryset self)) in *.
  destruct (clear_loop_frame F keys (queryset self)) as (Hmodel & Hwhere & _).
  split; [|split; [|split]].
  - intros name. subst qs. unfold prefetch_related; cbn [annotations].
    rewrite (clear_loop_lookup F keys).
    destruct (decide (name ∈ F)) as [HF|HF].
    + rewrite decide_False; [done|]. by intros [_ ?].
    + case_decide as Hk; [done|].
      destruct (annotations (queryset self) !! name) as [v|] eqn:Hv; [|done].
      destruct Hk. split; [|done].
      unfold keys, BriefModeMixin.annotation_keys.
      apply list_elem_of_fmap. exists (name, v). split; [done|].
      by apply elem_of_map_to_list.
  - apply prefetch_related_only.
  - exact Hmodel.
  - exact Hwhere.
Qed.

(** The tenant queryset annotates [device_count], [site_count] and [name];
    the nested serializer only has the field [name]. *)
Example brief_tenant_queryset :
  let qs := BriefModeMixin.get_queryset
              (BriefModeMixin.initialize_request TenantView.view
                 (TenantView.request "GET" [("brief", "1")] JNull)) in
  map_to_list (annotations qs) = [("name", "Lower(name)")]
  ∧ prefetch_related_lookups qs = ["group"].
Proof. by vm_compute. Qed.

(** ** Rows of a filtered queryset *)

Lemma qs_matches_filter qs l obj :
  qs_matches (qs_filter qs l) obj = qs_matches qs obj && lookup_matches obj l.
Proof.
  unfold qs_matches, qs_filter; simpl.
  rewrite forallb_app. simpl. by rewrite andb_true_r.
Qed.

Lemma qs_rows_filter qs l db :
  qs_rows (qs_filter qs l) db = filter (λ obj, lookup_matches obj l) (qs_rows qs db).
Proof.
  unfold qs_rows. rewrite list_filter_filter. apply list_filter_iff.
  intros obj. rewrite qs_matches_filter, andb_True. tauto.
Qed.

Lemma elem_of_qs_rows_pk__in qs ids db obj :
  obj ∈ qs_rows (qs_filter qs (pk__in ids)) db ↔ obj ∈ qs_rows qs db ∧ pk obj ∈ ids.
Proof.
  rewrite qs_rows_filter, list_elem_of_filter. simpl.
  rewrite bool_decide_spec. tauto.
Qed.

Lemma qs_rows_pk_NoDup qs db : pk_unique db → NoDup (pk <$> qs_rows qs db).
Proof.
  intros Huniq. eapply sublist_NoDup; [exact Huniq|].
  apply fmap_sublist, sublist_filter.
Qed.

(** The rows of [qs.filter(pk__in=ids)]: one per id that the queryset
    matches, whatever the number of times the id is listed. *)
Lemma pk__in_rows_short qs ids db id :
  pk_unique db → id ∈ ids → ¬ matched qs db id →
  length (qs_rows (qs_filter qs (pk__in ids)) db) < length ids.
Proof.
  intros Huniq Hin Hunmatched.
  apply elem_of_Permutation in Hin as [ids' Hperm].
  rewrite (Permutation_length Hperm); simpl.
  rewrite <- (length_fmap pk). apply Nat.lt_succ_r, submseteq_length.
  apply NoDup_submseteq; [by apply qs_rows_pk_NoDup|].
  intros x (obj & -> & Hobj)%list_elem_of_fmap.
  apply elem_of_qs_rows_pk__in in Hobj as [Hrow Hids].
  rewrite Hperm in Hids. apply elem_of_cons in Hids as [Heq|Hids']; [|done].
  destruct Hunmatched. rewrite <- Heq. by apply list_elem_of_fmap_2.
Qed.

Lemma pk__in_rows_Permutation qs ids db :
  pk_unique db → NoDup ids → (∀ id, id ∈ ids → matched qs db id) →
  pk <$> qs_rows (qs_filter qs (pk__in ids)) db ≡ₚ ids.
Proof.
  intros Huniq Hids Hall.
  apply NoDup_Permutation; [by apply qs_rows_pk_NoDup|done|].
  intros x. split.
  - intros (obj & -> & Hobj)%list_elem_of_fmap.
    by apply elem_of_qs_rows_pk__in in Hobj as [_ ?].
  - intros Hx. pose proof (Hall x Hx) as Hm. unfold matched in Hm.
    apply list_elem_of_fmap in Hm as (obj & -> & Hobj).
    apply list_elem_of_fmap_2, elem_of_qs_rows_pk__in. by split.
Qed.

(** ** Conformance with the permitted queryset *)

(** With unique primary keys, [_validate_objects] raises
    ObjectDoesNotExist for an instance the queryset of the view does not
    match and for a list that holds such an instance; it returns for an
    instance that is matched, and for a list of matched instances with
    pairwise distinct primary keys. *)
Theorem validate_objects_conforming (self : ViewSet) (instance : Instance + list Instance)
    (db : Database) :
  pk_unique db →
  let run := ObjectValidationMixin._validate_objects self instance db in
  let conforms obj := matched (queryset self) db (pk obj) in
  match instance with
  | inl obj =>
      (¬ conforms obj → run = (inl ObjectDoesNotExist, db))
      ∧ (conforms obj → run = (inr (), db))
  | inr instances =>
      (Exists (λ obj, ¬ conforms obj) instances → run = (inl ObjectDoesNotExist, db))
      ∧ (Forall conforms instances → NoDup (pk <$> instances) → run = (inr (), db))
  end.
Proof.
  intros Huniq run conforms. subst run.
  destruct instance as [obj|instances]; unfold ObjectValidationMixin._validate_objects;
    rewrite bind_run; unfold qs_exists, qs_count.
  - assert (Hrows : conforms obj ↔
              qs_rows (qs_filter (queryset self) (pk_exact (pk obj))) db ≠ []).
    { rewrite qs_rows_filter. unfold conforms, matched. split.
      - intros (row & Hpk & Hrow)%list_elem_of_fmap Hnil.
        eapply (filter_nil_not_elem_of _ _ row Hnil); [|done].
        simpl. by apply bool_decide_spec.
      - intros Hne.
        destruct (filter (λ o, lookup_matches o (pk_exact (pk obj)))
                    (qs_rows (queryset self) db)) as [|row rows] eqn:Hf; [done|].
        assert (Hin : row ∈ row :: rows) by left.
        rewrite <- Hf in Hin. apply list_elem_of_filter in Hin as [Hpk Hin].
        simpl in Hpk. apply bool_decide_spec in Hpk. rewrite <- Hpk.
        by apply list_elem_of_fmap_2. }
    destruct (qs_rows (qs_filter (queryset self) (pk_exact (pk obj))) db) as [|row rows].
    + split; [done|]. intros Hc. by apply Hrows in Hc.
    + split; [|done]. intros Hc. destruct Hc. by apply Hrows.
  - split.
    + intros (obj & Hobj & Hunmatched)%Exists_exists.
      rewrite bool_decide_true; [done|].
      pose proof (pk__in_rows_short (queryset self) (pk <$> instances) db (pk obj) Huniq
                    (list_elem_of_fmap_2 pk _ _ Hobj) Hunmatched) as Hlt.
      rewrite length_fmap in Hlt. lia.
    + intros Hall Hdistinct.
      rewrite bool_decide_false; [done|]. intros Hne. apply Hne.
      rewrite <- (length_fmap pk (qs_rows _ _)), <- (length_fmap pk instances).
      apply Permutation_length, pk__in_rows_Permutation; [done..|].
      intros id (obj & -> & Hobj)%list_elem_of_fmap.
      by apply (proj1 (Forall_forall _ _) Hall).
Qed.

Lemma db0_pk_unique : pk_unique TenantView.db0.
Proof. refine (bool_decide_unpack _ _). by vm_compute. Qed.

(** Tenant 2 is outside the queryset of a caller restricted to tenant 1. *)
Lemma validate_objects_conforming_witness :
  ObjectValidationMixin._validate_objects TenantView.restricted_view
    (inr [TenantView.tenant 1 "Acme" "acme"; TenantView.tenant 2 "Initech" "initech"])
    TenantView.db0
  = (inl ObjectDoesNotExist, TenantView.db0).
Proof.
  apply (validate_objects_conforming TenantView.restricted_view
           (inr [TenantView.tenant 1 "Acme" "acme"; TenantView.tenant 2 "Initech" "initech"])
           TenantView.db0 db0_pk_unique).
  apply Exists_cons_tl, Exists_cons_hd.
  refine (bool_decide_unpack _ _). by vm_compute.
Defined.

(** C4: the list branch does not do what the method documents for a list
    that names a conforming instance twice: with unique primary keys, an
    instance matched by the queryset of the view passes alone and as a list
    of one, while the list that holds it twice, all of whose instances are
    matched, raises ObjectDoesNotExist, because the queryset counts one row
    for two list entries. *)
Theorem validate_objects_repeated_instance (self : ViewSet) (obj : Instance) (db : Database) :
  pk_unique db →
  matched (queryset self) db (pk obj) →
  Forall (λ o, matched (queryset self) db (pk o)) [obj; obj]
  ∧ ObjectValidationMixin._validate_objects self (inl obj) db = (inr (), db)
  ∧ ObjectValidationMixin._validate_objects self (inr [obj]) db = (inr (), db)
  ∧ ObjectValidationMixin._validate_objects self (inr [obj; obj]) db
    = (inl ObjectDoesNotExist, db).
Proof.
  intros Huniq Hmatched. split; [by repeat constructor|].
  split; [by apply (validate_objects_conforming self (inl obj) db Huniq)|].
  split.
  { apply (validate_objects_conforming self (inr [obj]) db Huniq).
    - by repeat constructor.
    - apply NoDup_singleton. }
  unfold ObjectValidationMixin._validate_objects. rewrite bind_run. unfold qs_count.
  pose proof (qs_rows_pk_NoDup (qs_filter (queryset self) (pk__in (pk <$> [obj; obj]))) db
                Huniq) as Hnodup.
  destruct (qs_rows (qs_filter (queryset self) (pk__in (pk <$> [obj; obj]))) db)
    as [|row [|row' rows]] eqn:Hrows; [done|done|].
  exfalso.
  assert (Hpk : ∀ r, r ∈ row :: row' :: rows → pk r = pk obj).
  { intros r Hr. rewrite <- Hrows in Hr.
    apply elem_of_qs_rows_pk__in in Hr as [_ Hr]. simpl in Hr.
    apply elem_of_cons in Hr as [Hr|Hr]; [done|].
    by apply list_elem_of_singleton in Hr. }
  rewrite !fmap_cons in Hnodup. apply NoDup_cons in Hnodup as [Hfresh _].
  apply Hfresh. rewrite (Hpk row) by left. rewrite <- (Hpk row') by (right; left). left.
Qed.

(** Tenant 1 passes alone; the list that names it twice does not. *)
Lemma validate_objects_repeated_instance_witness :
  ObjectValidationMixin._validate_objects TenantView.view
    (inl (TenantView.tenant 1 "Acme" "acme")) TenantView.db0 = (inr (), TenantView.db0)
  ∧ ObjectValidationMixin._validate_objects TenantView.view
      (inr [TenantView.tenant 1 "Acme" "acme"; TenantView.tenant 1 "Acme" "acme"])
      TenantView.db0
    = (inl ObjectDoesNotExist, TenantView.db0).
Proof.
  destruct (validate_objects_repeated_instance TenantView.view
              (TenantView.tenant 1 "Acme" "acme") TenantView.db0 db0_pk_unique)
    as (_ & Hone & _ & Htwice).
  - refine (bool_decide_unpack _ _). by vm_compute.
  - by split.
Defined.

(** ** What a bulk update returns *)

Lemma filter_ext_in {A} (P Q : A → Prop) `{!∀ x, Decision (P x), !∀ x, Decision (Q x)}
    (l : list A) :
  (∀ x, x ∈ l → P x ↔ Q x) → filter P l = filter Q l.
Proof.
  induction l as [|x l IH]; intros Hext; [done|].
  rewrite !filter_cons.
  rewrite IH by (intros y Hy; apply Hext; by right).
  apply decide_ext, Hext. by left.
Qed.

(** Ids listed in the order of the rows select those rows, in that order. *)
Lemma rows_of_ordered_ids (rows : list Instance) : ∀ ids : list Z,
  NoDup (pk <$> rows) → ids `sublist_of` (pk <$> rows) →
  pk <$> filter (λ obj, pk obj ∈ ids) rows = ids.
Proof.
  induction rows as [|obj rows IH]; intros ids Hnodup Hsub.
  - by apply sublist_nil_r in Hsub as ->.
  - rewrite fmap_cons in Hnodup, Hsub. apply NoDup_cons in Hnodup as [Hfresh Hnodup].
    apply sublist_cons_r in Hsub as [Hsub|(ids' & -> & Hsub)].
    + rewrite filter_cons_False; [by apply IH|].
      intros Hin. apply Hfresh. by eapply elem_of_sublist.
    + rewrite filter_cons_True by left. rewrite fmap_cons. f_equal.
      transitivity (pk <$> filter (λ row, pk row ∈ ids') rows); [|by apply IH].
      f_equal. apply filter_ext_in. intros row Hrow. rewrite elem_of_cons.
      split; [|by right]. intros [Heq|?]; [|done].
      destruct Hfresh. rewrite <- Heq. by apply list_elem_of_fmap_2.
Qed.

Section bulk_update_result.
Context (self : ViewSet) (objects : QuerySet) (update_data : gmap Z json) (partial : bool).
Hypothesis Hreports : update_reports_pk self.

(** Every turn of the loop appends the representation of its row. *)
Lemma update_loop_ids rows : ∀ data_list db out db',
  for_each rows data_list
    (BulkUpdateModelMixin.update_one self objects update_data partial) db = (inr out, db') →
  ∃ reps, out = data_list ++ reps ∧ rep_id <$> reps = Some ∘ pk <$> rows.
Proof using Hreports.
  induction rows as [|obj rows IH]; intros data_list db out db' Hrun.
  - injection Hrun as <- _. exists []. by rewrite app_nil_r.
  - simpl in Hrun. apply bind_inr_inv in Hrun as (acc & db1 & Hone & Hrest).
    unfold BulkUpdateModelMixin.update_one in Hone.
    apply bind_inr_inv in Hone as (ser1 & dbv & Hvalid & Hone).
    apply bind_inr_inv in Hone as (ser2 & dbu & Hupdate & Hone).
    injection Hone as <- <-.
    apply IH in Hrest as (reps & -> & Hids).
    exists (serializer_data self ser2 :: reps). split; [by rewrite <- app_assoc|].
    rewrite !fmap_cons, Hids. f_equal.
    rewrite (Hreports _ _ _ _ _ _ _ _ Hvalid Hupdate).
    by destruct (has_snapshot (model objects)).
Qed.

Lemma perform_bulk_update_ids db out db' :
  BulkUpdateModelMixin.perform_bulk_update self objects update_data partial db
    = (inr out, db') →
  rep_id <$> out = Some ∘ pk <$> qs_rows objects db.
Proof using Hreports.
  unfold BulkUpdateModelMixin.perform_bulk_update. intros Hrun.
  apply (proj1 (atomic_commits _ _ _ _)) in Hrun.
  rewrite bind_run in Hrun. simpl in Hrun.
  by apply update_loop_ids in Hrun as (reps & -> & Hids).
Qed.
End bulk_update_result.

(** The ids of the returned representations are the pks of the rows of the
    filtered queryset, in its order. *)
Lemma bulk_update_representation_ids self request partial db ids resp db' :
  update_reports_pk self →
  BulkOperationSerializer (data request) = inr ids →
  BulkUpdateModelMixin.bulk_update self request partial db = (inr resp, db') →
  status resp = HTTP_200_OK
  ∧ rep_id <$> representations resp
    = Some ∘ pk <$> qs_rows (qs_filter (BulkUpdateModelMixin.get_bulk_update_queryset self)
                               (pk__in ids)) db.
Proof.
  intros Hreports Hids Hrun.
  unfold BulkUpdateModelMixin.bulk_update in Hrun. rewrite Hids in Hrun.
  apply bind_inr_inv in Hrun as (ids0 & db0 & Hlift & Hrun). injection Hlift as <- <-.
  apply bind_inr_inv in Hrun as (update_data & db0 & Hlift & Hrun).
  rewrite lift_run in Hlift. injection Hlift as _ <-.
  apply bind_inr_inv in Hrun as (out & db1 & Hloop & Hret). injection Hret as <- <-.
  apply perform_bulk_update_ids in Hloop; [|done].
  unfold representations; simpl. by split.
Qed.

(** Every turn of the loop appends one representation, whatever the
    serializers are. *)
Lemma update_loop_length self objects (update_data : gmap Z json) partial rows :
  ∀ data_list db out db',
    for_each rows data_list
      (BulkUpdateModelMixin.update_one self objects update_data partial) db = (inr out, db') →
    length out = length data_list + length rows.
Proof.
  induction rows as [|obj rows IH]; intros data_list db out db' Hrun.
  - injection Hrun as <- _. simpl. lia.
  - simpl in Hrun. apply bind_inr_inv in Hrun as (acc & db1 & Hone & Hrest).
    unfold BulkUpdateModelMixin.update_one in Hone.
    apply bind_inr_inv in Hone as (ser1 & dbv & Hvalid & Hone).
    apply bind_inr_inv in Hone as (ser2 & dbu & Hupdate & Hone).
    injection Hone as <- <-.
    apply IH in Hrest. rewrite Hrest, length_app. simpl. lia.
Qed.

(** A bulk update that returns answers 200 with one representation per row
    of the filtered queryset. *)
Lemma bulk_update_representation_count self request partial db ids resp db' :
  BulkOperationSerializer (data request) = inr ids →
  BulkUpdateModelMixin.bulk_update self request partial db = (inr resp, db') →
  status resp = HTTP_200_OK
  ∧ length (representations resp)
    = length (qs_rows (qs_filter (BulkUpdateModelMixin.get_bulk_update_queryset self)
                         (pk__in ids)) db).
Proof.
  intros Hids Hrun.
  unfold BulkUpdateModelMixin.bulk_update in Hrun. rewrite Hids in Hrun.
  apply bind_inr_inv in Hrun as (ids0 & db0 & Hlift & Hrun). injection Hlift as <- <-.
  apply bind_inr_inv in Hrun as (update_data & db0 & Hlift & Hrun).
  rewrite lift_run in Hlift. injection Hlift as _ <-.
  apply bind_inr_inv in Hrun as (out & db1 & Hloop & Hret). injection Hret as <- <-.
  unfold BulkUpdateModelMixin.perform_bulk_update in Hloop.
  apply (proj1 (atomic_commits _ _ _ _)) in Hloop. rewrite bind_run in Hloop.
  simpl in Hloop. apply update_loop_length in Hloop.
  unfold representations; simpl. by split.
Qed.

(** C2: for a valid bulk-update payload, [bulk_update] answers 200 with one
    representation per row of the queryset whose pk is among the payload
    ids, in queryset order; when the ids are pairwise distinct and each is
    matched by the queryset there are as many representations as ids.  For
    a view whose serializers report under ["id"] the pk of the object they
    saved, each representation carries the id of its row; the returned ids
    are then the payload ids up to order when the ids are pairwise distinct
    and all matched, and the i-th returned id is the i-th payload id when
    the ids are listed in queryset order. *)
Theorem bulk_update_returns_matched_rows (self : ViewSet) (request : Request)
    (partial : bool) (db : Database) (ids : list Z) (resp : Response) (db' : Database) :
  BulkOperationSerializer (data request) = inr ids →
  BulkUpdateModelMixin.bulk_update self request partial db = (inr resp, db') →
  let qs := BulkUpdateModelMixin.get_bulk_update_queryset self in
  let rows := qs_rows (qs_filter qs (pk__in ids)) db in
  status resp = HTTP_200_OK
  ∧ length (representations resp) = length rows
  ∧ (pk_unique db → NoDup ids → (∀ id, id ∈ ids → matched qs db id) →
       length (representations resp) = length ids)
  ∧ (update_reports_pk self →
       rep_id <$> representations resp = Some ∘ pk <$> rows
       ∧ (pk_unique db → NoDup ids → (∀ id, id ∈ ids → matched qs db id) →
            rep_id <$> representations resp ≡ₚ Some <$> ids)
       ∧ (pk_unique db → ids `sublist_of` (pk <$> qs_rows qs db) →
            rep_id <$> representations resp = Some <$> ids)).
Proof.
  intros Hids Hrun qs rows.
  destruct (bulk_update_representation_count self request partial db ids resp db'
              Hids Hrun) as [Hstatus Hcount]. fold qs rows in Hcount.
  split; [done|]. split; [done|]. split.
  - intros Huniq Hdistinct Hall. rewrite Hcount, <- (length_fmap pk).
    by apply Permutation_length, pk__in_rows_Permutation.
  - intros Hreports.
    destruct (bulk_update_representation_ids self request partial db ids resp db'
                Hreports Hids Hrun) as [_ Hloop]. fold qs rows in Hloop.
    split; [done|]. rewrite Hloop. split.
    + intros Huniq Hdistinct Hall. rewrite list_fmap_compose.
      by apply fmap_Permutation, pk__in_rows_Permutation.
    + intros Huniq Hsub. rewrite list_fmap_compose. f_equal.
      unfold rows. rewrite qs_rows_filter.
      transitivity (pk <$> filter (λ obj, pk obj ∈ ids) (qs_rows qs db)).
      * f_equal. apply list_filter_iff. intros obj. simpl. apply bool_decide_spec.
      * apply rows_of_ordered_ids; [by apply qs_rows_pk_NoDup|done].
Qed.

(** The serializers of the tenant view report the pk of the row they save. *)
Lemma tenant_view_reports_pk : update_reports_pk TenantView.view.
Proof.
  intros obj d p ser1 ser2 db db1 db2 Hvalid Hupdate.
  cbn in Hvalid. unfold TenantView.tenant_is_valid in Hvalid. cbn in Hvalid.
  repeat case_match; simplify_eq;
    cbn in Hupdate; unfold TenantView.tenant_perform_update in Hupdate; cbn in Hupdate;
    simplify_eq; reflexivity.
Qed.

Lemma bulk_update_returns_matched_rows_witness :
  ∃ resp db',
    BulkUpdateModelMixin.bulk_update TenantView.view rename_both true TenantView.db0
      = (inr resp, db')
    ∧ rep_id <$> representations resp = [Some 1%Z; Some 2%Z].
Proof.
  eexists _, _. split; [vm_compute; reflexivity|].
  refine (proj2 (proj2 (proj2 (proj2 (proj2 (bulk_update_returns_matched_rows TenantView.view
            rename_both true TenantView.db0 [1%Z; 2%Z] _ _ eq_refl eq_refl)))
            tenant_view_reports_pk)) db0_pk_unique _).
  vm_compute. apply sublist_skip, sublist_skip, sublist_nil.
Defined.

(** The response does not echo the payload ids in general: an id that
    matches no row has no representation, and ids listed against the table
    order come back in table order. *)
Lemma bulk_update_ids_not_echoed :
  let unmatched := TenantView.request "PATCH" []
                     (JArr [TenantView.payload 1 [("name", JStr "Acme Corp")];
                            TenantView.payload 99 [("name", JStr "Nobody")]]) in
  let reversed := TenantView.request "PATCH" []
                    (JArr [TenantView.payload 2 [("name", JStr "Initech LLC")];
                           TenantView.payload 1 [("name", JStr "Acme Corp")]]) in
  (BulkOperationSerializer (data unmatched) = inr [1%Z; 99%Z]
   ∧ ∃ resp db',
       BulkUpdateModelMixin.bulk_update TenantView.view unmatched true TenantView.db0
         = (inr resp, db')
       ∧ rep_id <$> representations resp = [Some 1%Z])
  ∧ (BulkOperationSerializer (data reversed) = inr [2%Z; 1%Z]
     ∧ ∃ resp db',
         BulkUpdateModelMixin.bulk_update TenantView.view reversed true TenantView.db0
           = (inr resp, db')
         ∧ rep_id <$> representations resp = [Some 1%Z; Some 2%Z]).
Proof.
  split; (split; [reflexivity|]); eexists _, _; (split; [vm_compute; reflexivity|reflexivity]).
Qed.

(** ** Ids that match no row *)

Section unmatched_ids.
Context (qs : QuerySet) (db : Database).

Local Abbreviation kept := (filter (λ item, keeps qs db item)).

Lemma bulk_operation_ids_drop items :
  bulk_operation_ids_of (kept items)
  = match bulk_operation_ids_of items with
    | inl e => inl e
    | inr ids => inr (filter (matched qs db) ids)
    end.
Proof.
  induction items as [|item items IH]; [done|].
  destruct item as [| | | | |d];
    try (rewrite filter_cons_True by done; reflexivity).
  destruct (dict_get "id" d) as [v|] eqn:Hid.
  - destruct v as [| |n| | |];
      try (rewrite filter_cons_True by (unfold keeps; simpl; by rewrite Hid);
           simpl; by rewrite Hid).
    destruct (decide (matched qs db n)) as [Hn|Hn].
    + rewrite filter_cons_True
        by (unfold keeps; simpl; rewrite Hid; by apply bool_decide_spec).
      simpl. rewrite Hid, IH.
      destruct (bulk_operation_ids_of items) as [e|ids]; [done|].
      by rewrite filter_cons_True.
    + rewrite filter_cons_False
        by (unfold keeps; simpl; rewrite Hid; by rewrite bool_decide_spec).
      simpl. rewrite Hid, IH.
      destruct (bulk_operation_ids_of items) as [e|ids]; [done|].
      by rewrite filter_cons_False.
  - rewrite filter_cons_True by (unfold keeps; simpl; by rewrite Hid).
    simpl. by rewrite Hid.
Qed.

(** The update maps of the two payloads agree on every matched id. *)
Lemma update_data_drop items : ∀ acc acc' : gmap Z json,
  (∀ k, matched qs db k → acc !! k = acc' !! k) →
  match BulkUpdateModelMixin.update_data_of items acc,
        BulkUpdateModelMixin.update_data_of (kept items) acc' with
  | inr m, inr m' => ∀ k, matched qs db k → m !! k = m' !! k
  | inl e, inl e' => e = e'
  | _, _ => False
  end.
Proof.
  induction items as [|item items IH]; intros acc acc' Hacc; [done|].
  destruct item as [| | | | |d];
    try (rewrite filter_cons_True by done; reflexivity).
  destruct (dict_get "id" d) as [v|] eqn:Hid.
  - destruct v as [| |n| | |];
      try (rewrite filter_cons_True by (unfold keeps; simpl; by rewrite Hid);
           simpl; by rewrite Hid).
    destruct (decide (matched qs db n)) as [Hn|Hn].
    + rewrite filter_cons_True
        by (unfold keeps; simpl; rewrite Hid; by apply bool_decide_spec).
      simpl. rewrite Hid. apply IH. intros k Hk.
      destruct (decide (n = k)) as [->|Hne].
      * by rewrite !lookup_insert_eq.
      * rewrite !lookup_insert_ne by done. by apply Hacc.
    + rewrite filter_cons_False
        by (unfold keeps; simpl; rewrite Hid; by rewrite bool_decide_spec).
      simpl. rewrite Hid. apply IH. intros k Hk.
      rewrite lookup_insert_ne by (by intros ->). by apply Hacc.
  - rewrite filter_cons_True by (unfold keeps; simpl; by rewrite Hid).
    simpl. by rewrite Hid.
Qed.

(** Filtering on the matched ids alone selects the same rows. *)
Lemma qs_rows_drop ids :
  qs_rows (qs_filter qs (pk__in (filter (matched qs db) ids))) db
  = qs_rows (qs_filter qs (pk__in ids)) db.
Proof.
  rewrite !qs_rows_filter. apply filter_ext_in. intros obj Hobj. simpl.
  rewrite !bool_decide_spec, list_elem_of_filter.
  split; [by intros [_ ?]|]. intros Hin. split; [|done].
  by apply list_elem_of_fmap_2.
Qed.

Lemma elem_of_qs_rows_matched ids obj :
  obj ∈ qs_rows (qs_filter qs (pk__in ids)) db → matched qs db (pk obj).
Proof.
  intros [Hobj _]%elem_of_qs_rows_pk__in. by apply list_elem_of_fmap_2.
Qed.
End unmatched_ids.

Lemma perform_bulk_update_agree self qs1 qs2 (m1 m2 : gmap Z json) partial db :
  model qs1 = model qs2 →
  qs_rows qs1 db = qs_rows qs2 db →
  (∀ obj, obj ∈ qs_rows qs1 db → m1 !! pk obj = m2 !! pk obj) →
  BulkUpdateModelMixin.perform_bulk_update self qs1 m1 partial db
  = BulkUpdateModelMixin.perform_bulk_update self qs2 m2 partial db.
Proof.
  intros Hmodel Hrows Hagree.
  unfold BulkUpdateModelMixin.perform_bulk_update, atomic.
  rewrite !bind_run. unfold qs_iter. rewrite <- Hrows.
  rewrite (for_each_ext (qs_rows qs1 db)
             (BulkUpdateModelMixin.update_one self qs1 m1 partial)
             (BulkUpdateModelMixin.update_one self qs2 m2 partial)); [done|].
  intros acc obj db0 Hobj. unfold BulkUpdateModelMixin.update_one.
  by rewrite Hmodel, (Hagree obj Hobj).
Qed.

Lemma perform_bulk_destroy_agree self qs1 qs2 db :
  model qs1 = model qs2 →
  qs_rows qs1 db = qs_rows qs2 db →
  BulkDestroyModelMixin.perform_bulk_destroy self qs1 db
  = BulkDestroyModelMixin.perform_bulk_destroy self qs2 db.
Proof.
  intros Hmodel Hrows.
  unfold BulkDestroyModelMixin.perform_bulk_destroy, atomic.
  rewrite !bind_run. unfold qs_iter. rewrite <- Hrows.
  rewrite (for_each_ext (qs_rows qs1 db)
             (BulkDestroyModelMixin.destroy_one self qs1)
             (BulkDestroyModelMixin.destroy_one self qs2)); [done|].
  intros acc obj db0 Hobj. unfold BulkDestroyModelMixin.destroy_one.
  by rewrite Hmodel.
Qed.

Lemma bulk_update_drop_unmatched self request partial db :
  BulkUpdateModelMixin.bulk_update self request partial db
  = BulkUpdateModelMixin.bulk_update self
      (drop_unmatched (BulkUpdateModelMixin.get_bulk_update_queryset self) db request)
      partial db.
Proof.
  set (qs := BulkUpdateModelMixin.get_bulk_update_queryset self).
  unfold BulkUpdateModelMixin.bulk_update, drop_unmatched. fold qs.
  destruct (data request) as [| | | |items|] eqn:Hdata; try reflexivity.
  cbn [data]. rewrite !bind_run, !lift_run.
  unfold BulkOperationSerializer. rewrite bulk_operation_ids_drop.
  destruct (bulk_operation_ids_of items) as [e|ids]; [done|].
  rewrite !bind_run, !lift_run. unfold BulkUpdateModelMixin.map_update_data.
  pose proof (update_data_drop qs db items ∅ ∅ (λ _ _, eq_refl)) as Hmaps.
  destruct (BulkUpdateModelMixin.update_data_of items ∅) as [e|m],
    (BulkUpdateModelMixin.update_data_of (filter (λ item, keeps qs db item) items) ∅)
    as [e'|m']; try done; [by subst|].
  rewrite !bind_run.
  rewrite (perform_bulk_update_agree self
             (qs_filter qs (pk__in ids))
             (qs_filter qs (pk__in (filter (matched qs db) ids))) m m'); [done|done| |].
  - by rewrite qs_rows_drop.
  - intros obj Hobj. by apply Hmaps, (elem_of_qs_rows_matched qs db ids).
Qed.

Lemma bulk_destroy_drop_unmatched self request db :
  BulkDestroyModelMixin.bulk_destroy self request db
  = BulkDestroyModelMixin.bulk_destroy self
      (drop_unmatched (BulkDestroyModelMixin.get_bulk_destroy_queryset self) db request) db.
Proof.
  set (qs := BulkDestroyModelMixin.get_bulk_destroy_queryset self).
  unfold BulkDestroyModelMixin.bulk_destroy, drop_unmatched. fold qs.
  destruct (data request) as [| | | |items|] eqn:Hdata; try reflexivity.
  cbn [data]. rewrite !bind_run, !lift_run.
  unfold BulkOperationSerializer. rewrite bulk_operation_ids_drop.
  destruct (bulk_operation_ids_of items) as [e|ids]; [done|].
  rewrite !bind_run.
  rewrite (perform_bulk_destroy_agree self
             (qs_filter qs (pk__in ids))
             (qs_filter qs (pk__in (filter (matched qs db) ids)))); [done|done|].
  by rewrite qs_rows_drop.
Qed.

(** C8: ids of a bulk payload that match no row of the queryset raise no
    error and change nothing: [bulk_update] and [bulk_destroy] behave on the
    payload as on the payload without the items that carry such ids, and a
    bulk update returns no representation for such an id. *)
Theorem bulk_requests_skip_unmatched_ids (self : ViewSet) (request : Request)
    (partial : bool) (db : Database) :
  BulkUpdateModelMixin.bulk_update self request partial db
  = BulkUpdateModelMixin.bulk_update self
      (drop_unmatched (BulkUpdateModelMixin.get_bulk_update_queryset self) db request)
      partial db
  ∧ BulkDestroyModelMixin.bulk_destroy self request db
    = BulkDestroyModelMixin.bulk_destroy self
        (drop_unmatched (BulkDestroyModelMixin.get_bulk_destroy_queryset self) db request) db
  ∧ (update_reports_pk self →
     ∀ ids resp db' id,
       BulkOperationSerializer (data request) = inr ids →
       BulkUpdateModelMixin.bulk_update self request partial db = (inr resp, db') →
       ¬ matched (BulkUpdateModelMixin.get_bulk_update_queryset self) db id →
       Some id ∉ rep_id <$> representations resp).
Proof.
  split; [apply bulk_update_drop_unmatched|]. split; [apply bulk_destroy_drop_unmatched|].
  intros Hreports ids resp db' id Hids Hrun Hunmatched Hin.
  destruct (bulk_update_representation_ids self request partial db ids resp db'
              Hreports Hids Hrun) as [_ Hreps].
  rewrite Hreps in Hin.
  apply list_elem_of_fmap in Hin as (obj & [= ->] & Hobj).
  by apply elem_of_qs_rows_matched in Hobj.
Qed.

(** Deleting tenants 1 and 99 is deleting tenant 1. *)
Lemma bulk_requests_skip_unmatched_ids_witness :
  BulkDestroyModelMixin.bulk_destroy TenantView.view
    (TenantView.request "DELETE" [] (JArr [TenantView.payload 1 []; TenantView.payload 99 []]))
    TenantView.db0
  = BulkDestroyModelMixin.bulk_destroy TenantView.view
      (TenantView.request "DELETE" [] (JArr [TenantView.payload 1 []])) TenantView.db0.
Proof.
  exact (proj1 (proj2 (bulk_requests_skip_unmatched_ids TenantView.view
           (TenantView.request "DELETE" []
              (JArr [TenantView.payload 1 []; TenantView.payload 99 []]))
           true TenantView.db0))).
Defined.

(** A bulk delete and a bulk update that only name an unknown tenant answer
    204 and 200 and leave the table alone. *)
Example bulk_requests_for_unknown_id :
  BulkDestroyModelMixin.bulk_destroy TenantView.view
    (TenantView.request "DELETE" [] (JArr [TenantView.payload 99 []])) TenantView.db0
  = (inr {| status := 204; content := None; headers := [] |}, TenantView.db0)
  ∧ BulkUpdateModelMixin.bulk_update TenantView.view
      (TenantView.request "PUT" [] (JArr [TenantView.payload 99 [("name", JStr "Nobody")]]))
      false TenantView.db0
    = (inr {| status := 200; content := Some (JArr []); headers := [] |}, TenantView.db0).
Proof. split; reflexivity. Qed.


(** * Further properties of the mixins *)

(** ** The bulk loops, turn by turn *)

Section bulk_loops.
Context (self : ViewSet) (objects : QuerySet).

Lemma update_loop_inr (update_data : gmap Z json) partial rows : ∀ data_list db out db',
  for_each rows data_list
    (BulkUpdateModelMixin.update_one self objects update_data partial) db = (inr out, db') ↔
  ∃ reps, out = data_list ++ reps
          ∧ updates_in_order self objects update_data partial db rows reps db'.
Proof.
  induction rows as [|obj rows IH]; intros data_list db out db'.
  - simpl. split.
    + intros [= <- <-]. exists []. rewrite app_nil_r. split; [done|constructor].
    + intros (reps & -> & Hord). inversion Hord; subst. by rewrite app_nil_r.
  - simpl. split.
    + intros Hrun. apply bind_inr_inv in Hrun as (acc & db1 & Hone & Hrest).
      unfold BulkUpdateModelMixin.update_one in Hone.
      apply bind_inr_inv in Hone as (ser1 & dbv & Hvalid & Hone).
      apply bind_inr_inv in Hone as (ser2 & dbu & Hupdate & Hone).
      injection Hone as <- <-.
      apply IH in Hrest as (reps & -> & Hord).
      exists (serializer_data self ser2 :: reps). split; [by rewrite <- app_assoc|].
      by econstructor.
    + intros (reps & -> & Hord).
      inversion Hord as [|? ? ? ser1 db1 ser2 db2 reps' ? Hvalid Hupdate Hrest]; subst.
      rewrite bind_run. unfold BulkUpdateModelMixin.update_one at 1.
      unfold snapshotted in Hvalid.
      rewrite bind_run, Hvalid, bind_run, Hupdate. simpl.
      apply IH. exists reps'. split; [by rewrite <- app_assoc|done].
Qed.

Lemma updates_in_order_length (update_data : gmap Z json) partial db rows reps db' :
  updates_in_order self objects update_data partial db rows reps db' →
  length reps = length rows.
Proof. induction 1; simpl; congruence. Qed.

Lemma destroy_loop_inr rows : ∀ db db',
  for_each rows () (BulkDestroyModelMixin.destroy_one self objects) db = (inr (), db') ↔
  destroys_in_order self objects db rows db'.
Proof.
  induction rows as [|obj rows IH]; intros db db'.
  - simpl. split.
    + intros [= <-]. constructor.
    + intros Hord. by inversion Hord; subst.
  - simpl. split.
    + intros Hrun. apply bind_inr_inv in Hrun as ([] & db1 & Hone & Hrest).
      apply IH in Hrest. by econstructor.
    + intros Hord. inversion Hord as [|? ? ? db1 ? Hone Hrest]; subst.
      rewrite bind_run. unfold BulkDestroyModelMixin.destroy_one at 1.
      unfold snapshotted in Hone. rewrite Hone. by apply IH.
Qed.
End bulk_loops.

(** The update map of a payload whose validation passed. *)
Lemma update_data_of_valid items : ∀ ids (acc : gmap Z json),
  bulk_operation_ids_of items = inr ids →
  ∃ m, BulkUpdateModelMixin.update_data_of items acc = inr m.
Proof.
  induction items as [|item items IH]; intros ids acc Hids; [by eexists|].
  simpl in *. destruct item as [| | | | |d]; try discriminate.
  destruct (dict_get "id" d) as [[| |n| | |]|]; try discriminate.
  destruct (bulk_operation_ids_of items) as [e|ids'] eqn:Hrest; [discriminate|].
  by eapply IH.
Qed.

(** X1: [bulk_update] returns exactly when the payload is valid and the rows
    of the queryset whose pk is among the ids, fetched once when the loop
    starts, are validated and saved one after the other in queryset order,
    each in the database the turns before it left; the answer is then 200
    with the representations of those rows, and the database is the one the
    last turn left. *)
Theorem bulk_update_in_order (self : ViewSet) (request : Request) (partial : bool)
    (db : Database) (resp : Response) (db' : Database) :
  BulkUpdateModelMixin.bulk_update self request partial db = (inr resp, db') ↔
  ∃ ids update_data reps,
    BulkOperationSerializer (data request) = inr ids
    ∧ BulkUpdateModelMixin.map_update_data (data request) = inr update_data
    ∧ let qs := qs_filter (BulkUpdateModelMixin.get_bulk_update_queryset self) (pk__in ids) in
      updates_in_order self qs update_data partial db (qs_rows qs db) reps db'
      ∧ resp = {| status := HTTP_200_OK; content := Some (JArr reps); headers := [] |}.
Proof.
  unfold BulkUpdateModelMixin.bulk_update. split.
  - intros Hrun.
    apply bind_inr_inv in Hrun as (ids & db0 & Hids & Hrun).
    rewrite lift_run in Hids. injection Hids as Hids <-.
    apply bind_inr_inv in Hrun as (update_data & db0 & Hmap & Hrun).
    rewrite lift_run in Hmap. injection Hmap as Hmap <-.
    apply bind_inr_inv in Hrun as (out & db1 & Hloop & Hret). injection Hret as <- <-.
    exists ids, update_data, out. split; [done|]. split; [done|]. split; [|done].
    unfold BulkUpdateModelMixin.perform_bulk_update in Hloop.
    apply (proj1 (atomic_commits _ _ _ _)) in Hloop. rewrite bind_run in Hloop.
    simpl in Hloop. by apply update_loop_inr in Hloop as (reps & -> & Hord).
  - intros (ids & update_data & reps & Hids & Hmap & Hord & ->).
    rewrite bind_run, lift_run, Hids, bind_run, lift_run, Hmap, bind_run.
    unfold BulkUpdateModelMixin.perform_bulk_update.
    assert (Hloop : atomic
              (rows ← qs_iter (qs_filter (BulkUpdateModelMixin.get_bulk_update_queryset self)
                                 (pk__in ids));
               for_each rows []
                 (BulkUpdateModelMixin.update_one self
                    (qs_filter (BulkUpdateModelMixin.get_bulk_update_queryset self)
                       (pk__in ids)) update_data partial)) db = (inr reps, db')).
    { apply atomic_commits. rewrite bind_run. simpl.
      apply update_loop_inr. by exists reps. }
    by rewrite Hloop.
Qed.

(** X2: [bulk_destroy] returns exactly when the payload is valid and the rows
    of the queryset whose pk is among the ids, fetched once when the loop
    starts, are destroyed one after the other in queryset order; the answer
    is then 204 without content. *)
Theorem bulk_destroy_in_order (self : ViewSet) (request : Request)
    (db : Database) (resp : Response) (db' : Database) :
  BulkDestroyModelMixin.bulk_destroy self request db = (inr resp, db') ↔
  ∃ ids,
    BulkOperationSerializer (data request) = inr ids
    ∧ let qs := qs_filter (BulkDestroyModelMixin.get_bulk_destroy_queryset self) (pk__in ids) in
      destroys_in_order self qs db (qs_rows qs db) db'
      ∧ resp = {| status := HTTP_204_NO_CONTENT; content := None; headers := [] |}.
Proof.
  unfold BulkDestroyModelMixin.bulk_destroy. split.
  - intros Hrun.
    apply bind_inr_inv in Hrun as (ids & db0 & Hids & Hrun).
    rewrite lift_run in Hids. injection Hids as Hids <-.
    apply bind_inr_inv in Hrun as ([] & db1 & Hloop & Hret). injection Hret as <- <-.
    exists ids. split; [done|]. split; [|done].
    unfold BulkDestroyModelMixin.perform_bulk_destroy in Hloop.
    apply (proj1 (atomic_commits _ _ _ _)) in Hloop. rewrite bind_run in Hloop.
    simpl in Hloop. by apply destroy_loop_inr.
  - intros (ids & Hids & Hord & ->).
    rewrite bind_run, lift_run, Hids, bind_run.
    unfold BulkDestroyModelMixin.perform_bulk_destroy.
    assert (Hloop : atomic
              (rows ← qs_iter (qs_filter (BulkDestroyModelMixin.get_bulk_destroy_queryset self)
                                 (pk__in ids));
               for_each rows ()
                 (BulkDestroyModelMixin.destroy_one self
                    (qs_filter (BulkDestroyModelMixin.get_bulk_destroy_queryset self)
                       (pk__in ids)))) db = (inr (), db')).
    { apply atomic_commits. rewrite bind_run. simpl. by apply destroy_loop_inr. }
    by rewrite Hloop.
Qed.

(** ** How many representations a bulk update returns *)

(** X3: whatever the serializers do, a bulk update that returns carries one
    representation per row of the queryset whose pk is among the payload
    ids, and with unique primary keys never more representations than the
    payload has ids. *)
Theorem bulk_update_count_bound (self : ViewSet) (request : Request) (partial : bool)
    (db : Database) (ids : list Z) (resp : Response) (db' : Database) :
  BulkOperationSerializer (data request) = inr ids →
  BulkUpdateModelMixin.bulk_update self request partial db = (inr resp, db') →
  let qs := qs_filter (BulkUpdateModelMixin.get_bulk_update_queryset self) (pk__in ids) in
  length (representations resp) = length (qs_rows qs db)
  ∧ (pk_unique db → length (representations resp) ≤ length ids).
Proof.
  intros Hids Hrun qs.
  unfold BulkUpdateModelMixin.bulk_update in Hrun. rewrite Hids in Hrun.
  apply bind_inr_inv in Hrun as (ids0 & db0 & Hlift & Hrun). injection Hlift as <- <-.
  apply bind_inr_inv in Hrun as (update_data & db0 & Hlift & Hrun).
  rewrite lift_run in Hlift. injection Hlift as _ <-.
  apply bind_inr_inv in Hrun as (out & db1 & Hloop & Hret). injection Hret as <- <-.
  unfold BulkUpdateModelMixin.perform_bulk_update in Hloop.
  apply (proj1 (atomic_commits _ _ _ _)) in Hloop. rewrite bind_run in Hloop.
  simpl in Hloop. apply update_loop_inr in Hloop as (reps & -> & Hord).
  apply updates_in_order_length in Hord. fold qs in Hord.
  unfold representations; simpl. split; [done|].
  intros Huniq. rewrite Hord, <- (length_fmap pk).
  apply submseteq_length, NoDup_submseteq; [by apply qs_rows_pk_NoDup|].
  intros x (obj & -> & Hobj)%list_elem_of_fmap.
  by apply elem_of_qs_rows_pk__in in Hobj as [_ ?].
Qed.

Lemma bulk_update_count_bound_witness :
  ∃ resp db',
    BulkUpdateModelMixin.bulk_update TenantView.view
      (TenantView.request "PATCH" []
         (JArr [TenantView.payload 1 [("name", JStr "Acme Corp")];
                TenantView.payload 1 [("name", JStr "Acme Inc")];
                TenantView.payload 99 [("name", JStr "Nobody")]]))
      true TenantView.db0 = (inr resp, db')
    ∧ length (representations resp) ≤ 3.
Proof.
  eexists _, _. split; [vm_compute; reflexivity|].
  refine (proj2 (bulk_update_count_bound TenantView.view
            (TenantView.request "PATCH" []
               (JArr [TenantView.payload 1 [("name", JStr "Acme Corp")];
                      TenantView.payload 1 [("name", JStr "Acme Inc")];
                      TenantView.payload 99 [("name", JStr "Nobody")]]))
            true TenantView.db0 [1%Z; 1%Z; 99%Z] _ _ eq_refl eq_refl) db0_pk_unique).
Defined.

(** ** Bulk requests that match nothing *)

Lemma qs_rows_no_match qs ids db :
  (∀ id, id ∈ ids → ¬ matched qs db id) → qs_rows (qs_filter qs (pk__in ids)) db = [].
Proof.
  intros Hnone.
  destruct (qs_rows (qs_filter qs (pk__in ids)) db) as [|obj rows] eqn:Hrows; [done|].
  assert (Hobj : obj ∈ qs_rows (qs_filter qs (pk__in ids)) db) by (rewrite Hrows; left).
  apply elem_of_qs_rows_pk__in in Hobj as [Hrow Hin].
  destruct (Hnone _ Hin). by apply list_elem_of_fmap_2.
Qed.

(** X4: a valid bulk payload none of whose ids is matched by the queryset of
    the view, the empty list among them, is answered without any object
    being validated, saved or destroyed: a bulk update answers 200 with an
    empty list, a bulk destroy 204, and the database is as it was. *)
Theorem bulk_requests_without_match (self : ViewSet) (request : Request) (partial : bool)
    (db : Database) (ids : list Z) :
  BulkOperationSerializer (data request) = inr ids →
  (∀ id, id ∈ ids → ¬ matched (BriefModeMixin.get_queryset self) db id) →
  BulkUpdateModelMixin.bulk_update self request partial db
    = (inr {| status := HTTP_200_OK; content := Some (JArr []); headers := [] |}, db)
  ∧ BulkDestroyModelMixin.bulk_destroy self request db
    = (inr {| status := HTTP_204_NO_CONTENT; content := None; headers := [] |}, db).
Proof.
  intros Hids Hnone. split.
  - unfold BulkUpdateModelMixin.bulk_update.
    rewrite bind_run, lift_run, Hids, bind_run, lift_run.
    destruct (data request) as [| | | |items|] eqn:Hdata; try discriminate.
    destruct (update_data_of_valid items ids ∅ Hids) as [m Hm].
    unfold BulkUpdateModelMixin.map_update_data. rewrite Hm, bind_run.
    unfold BulkUpdateModelMixin.perform_bulk_update, atomic.
    rewrite bind_run. unfold qs_iter.
    unfold BulkUpdateModelMixin.get_bulk_update_queryset.
    by rewrite (qs_rows_no_match _ _ _ Hnone).
  - unfold BulkDestroyModelMixin.bulk_destroy.
    rewrite bind_run, lift_run, Hids, bind_run.
    unfold BulkDestroyModelMixin.perform_bulk_destroy, atomic.
    rewrite bind_run. unfold qs_iter.
    unfold BulkDestroyModelMixin.get_bulk_destroy_queryset.
    by rewrite (qs_rows_no_match _ _ _ Hnone).
Qed.

Lemma bulk_requests_without_match_witness :
  BulkUpdateModelMixin.bulk_update TenantView.view
    (TenantView.request "PUT" []
       (JArr [TenantView.payload 99 [("name", JStr "Nobody")]; TenantView.payload 100 []]))
    false TenantView.db0
    = (inr {| status := 200; content := Some (JArr []); headers := [] |}, TenantView.db0)
  ∧ BulkDestroyModelMixin.bulk_destroy TenantView.view
      (TenantView.request "PUT" []
         (JArr [TenantView.payload 99 [("name", JStr "Nobody")]; TenantView.payload 100 []]))
      TenantView.db0
    = (inr {| status := 204; content := None; headers := [] |}, TenantView.db0).
Proof.
  apply (bulk_requests_without_match TenantView.view
           (TenantView.request "PUT" []
              (JArr [TenantView.payload 99 [("name", JStr "Nobody")];
                     TenantView.payload 100 []]))
           false TenantView.db0 [99%Z; 100%Z] eq_refl).
  intros id Hid. apply list_elem_of_In in Hid. simpl in Hid.
  destruct Hid as [<-|[<-|[]]]; refine (bool_decide_unpack _ _); by vm_compute.
Defined.

(** ** The update data of a bulk payload *)

Lemma dict_get_remove_eq {V} k (d : list (string * V)) : dict_get k (dict_remove k d) = None.
Proof.
  induction d as [|[k' v] d IH]; [done|]. simpl.
  destruct (String.eqb k k') eqn:Hk; [done|]. simpl. by rewrite Hk.
Qed.

Lemma dict_get_remove_ne {V} k k' (d : list (string * V)) :
  k ≠ k' → dict_get k' (dict_remove k d) = dict_get k' d.
Proof.
  intros Hne. induction d as [|[k0 v] d IH]; [done|]. simpl.
  destruct (String.eqb_spec k k0) as [<-|Hk0]; simpl.
  - apply String.eqb_neq in Hne. rewrite String.eqb_sym in Hne. by rewrite Hne.
  - by rewrite IH.
Qed.

Lemma rep_id_Some_JObj item k :
  rep_id item = Some k → ∃ d, item = JObj d ∧ dict_get "id" d = Some (JNum k).
Proof.
  destruct item as [| | | | |d]; try discriminate. simpl.
  destruct (dict_get "id" d) as [[| |n| | |]|] eqn:Hid; try discriminate.
  intros [= ->]. by exists d.
Qed.

Lemma update_data_of_latest items : ∀ acc : gmap Z json,
  Forall (λ item, is_Some (rep_id item)) items →
  ∃ m, BulkUpdateModelMixin.update_data_of items acc = inr m
       ∧ ∀ k, m !! k = match last (filter (λ item, rep_id item = Some k) items) with
                       | Some (JObj d) => Some (JObj (dict_remove "id" d))
                       | Some _ => None
                       | None => acc !! k
                       end.
Proof.
  induction items as [|item items IH]; intros acc Hvalid.
  - exists acc. split; [done|]. intros k. by rewrite filter_nil.
  - apply Forall_cons in Hvalid as [[n Hn] Hvalid].
    destruct (rep_id_Some_JObj _ _ Hn) as (d & -> & Hid).
    destruct (IH (<[n := JObj (dict_remove "id" d)]> acc) Hvalid) as (m & Hm & Hlookup).
    exists m. split; [simpl; by rewrite Hid|].
    intros k. rewrite Hlookup. destruct (decide (n = k)) as [->|Hne].
    + rewrite filter_cons_True by done. rewrite last_cons.
      destruct (last (filter (λ item, rep_id item = Some k) items)) as [x|]; [done|].
      by rewrite lookup_insert_eq.
    + rewrite filter_cons_False by (rewrite Hn; congruence).
      destruct (last (filter (λ item, rep_id item = Some k) items)) as [x|]; [done|].
      by rewrite lookup_insert_ne.
Qed.

(** X5: for a payload whose items all carry a numeric id, building the
    update data never raises; the map has an entry for exactly the ids of
    the payload; the entry of an id is the last item that carries it, with
    its ["id"] member removed and every other member as the client sent
    it. *)
Theorem update_data_of_payload (items : list json) :
  Forall (λ item, is_Some (rep_id item)) items →
  ∃ update_data,
    BulkUpdateModelMixin.map_update_data (JArr items) = inr update_data
    ∧ (∀ k, is_Some (update_data !! k) ↔ k ∈ item_ids items)
    ∧ (∀ k d, last (filter (λ item, rep_id item = Some k) items) = Some (JObj d) →
         ∃ d', update_data !! k = Some (JObj d')
               ∧ dict_get "id" d' = None
               ∧ ∀ name, name ≠ "id" → dict_get name d' = dict_get name d).
Proof.
  intros Hvalid.
  destruct (update_data_of_latest items ∅ Hvalid) as (m & Hm & Hlookup).
  exists m. split; [done|]. split.
  - intros k. rewrite Hlookup. unfold item_ids. rewrite list_elem_of_omap. split.
    + intros Hsome.
      destruct (last (filter (λ item, rep_id item = Some k) items)) as [x|] eqn:Hlast.
      * apply last_Some_elem_of, list_elem_of_filter in Hlast as [Hx Hin]. by exists x.
      * rewrite lookup_empty in Hsome. by destruct Hsome.
    + intros (item & Hin & Hitem).
      destruct (last (filter (λ item, rep_id item = Some k) items)) as [x|] eqn:Hlast.
      * apply last_Some_elem_of, list_elem_of_filter in Hlast as [Hx _].
        destruct (rep_id_Some_JObj _ _ Hx) as (d & -> & _). eauto.
      * apply last_None in Hlast.
        by destruct (filter_nil_not_elem_of _ _ item Hlast Hitem).
  - intros k d Hlast. exists (dict_remove "id" d). rewrite Hlookup, Hlast.
    split; [done|]. split; [apply dict_get_remove_eq|].
    intros name Hname. by apply dict_get_remove_ne.
Qed.

Lemma update_data_of_payload_witness :
  ∃ update_data,
    BulkUpdateModelMixin.map_update_data
      (JArr [TenantView.payload 1 [("name", JStr "Acme Corp")];
             TenantView.payload 2 [("name", JStr "Initech LLC")];
             TenantView.payload 1 [("name", JStr "Acme Inc")]]) = inr update_data
    ∧ ∃ d', update_data !! 1%Z = Some (JObj d')
            ∧ dict_get "id" d' = None
            ∧ dict_get "name" d' = Some (JStr "Acme Inc").
Proof.
  destruct (update_data_of_payload
              [TenantView.payload 1 [("name", JStr "Acme Corp")];
               TenantView.payload 2 [("name", JStr "Initech LLC")];
               TenantView.payload 1 [("name", JStr "Acme Inc")]])
    as (m & Hm & _ & Hlast).
  { repeat constructor; by eexists. }
  exists m. split; [done|].
  destruct (Hlast 1%Z [("id", JNum 1); ("name", JStr "Acme Inc")] eq_refl)
    as (d' & Hd' & Hid & Hother).
  exists d'. split; [done|]. split; [done|].
  by rewrite (Hother "name").
Defined.

(** ** Creation: one object, and the headers of many *)

(** X6: [create] is transactional for every body: a POST that raises leaves
    the database as it was, whether the body is a list or one object; for a
    body that is not a list it returns exactly what [super().create]
    returns. *)
Theorem create_is_transactional (self : ViewSet) (request : Request) (db : Database) :
  (∀ e db', SequentialBulkCreatesMixin.create self request db = (inl e, db') → db' = db)
  ∧ ((∀ items, data request ≠ JArr items) →
     ∀ resp db',
       SequentialBulkCreatesMixin.create self request db = (inr resp, db')
       ↔ super_create self request db = (inr resp, db')).
Proof.
  split.
  - intros e db'. apply atomic_rolls_back.
  - intros Hsingle resp db'. unfold SequentialBulkCreatesMixin.create.
    rewrite atomic_commits.
    destruct (data request) as [| | | |items|]; try done.
    by destruct (Hsingle items).
Qed.

(** A single tenant whose slug is taken: the POST raises and nothing is kept. *)
Lemma create_is_transactional_witness :
  (SequentialBulkCreatesMixin.create TenantView.view
     (TenantView.request "POST" [] (JObj [("name", JStr "Acme 2"); ("slug", JStr "acme")]))
     TenantView.db0).2 = TenantView.db0.
Proof.
  apply (proj1 (create_is_transactional TenantView.view
                  (TenantView.request "POST" []
                     (JObj [("name", JStr "Acme 2"); ("slug", JStr "acme")]))
                  TenantView.db0)
           (ValidationError "slug: tenant with this slug already exists.")).
  vm_compute. reflexivity.
Defined.

(** The serializer the loop of [create] holds at its end is the one of the
    last representation. *)
Lemma create_loop_last (self : ViewSet) items : ∀ st db st' db',
  (∀ ser, st.1 = Some ser → last st.2 = Some (serializer_data self ser)) →
  for_each items st (SequentialBulkCreatesMixin.create_one self) db = (inr st', db') →
  ∀ ser, st'.1 = Some ser → last st'.2 = Some (serializer_data self ser).
Proof.
  induction items as [|d items IH]; intros st db st' db' Hst Hrun.
  - simpl in Hrun. by injection Hrun as <- <-.
  - simpl in Hrun. apply bind_inr_inv in Hrun as (st1 & db1 & Hone & Hrest).
    unfold SequentialBulkCreatesMixin.create_one in Hone.
    apply bind_inr_inv in Hone as (ser1 & dbv & Hvalid & Hone).
    apply bind_inr_inv in Hone as (ser2 & dbc & Hcreate & Hone).
    injection Hone as <- <-.
    eapply IH; [|exact Hrest]. simpl. intros ser [= <-]. apply last_snoc.
Qed.

(** X7: the success headers of a sequential bulk creation are those of the
    last object created: when [create] returns for a list body, its headers
    are [get_success_headers] of the last representation of the answer. *)
Theorem create_headers_of_last (self : ViewSet) (request : Request) (items : list json)
    (db : Database) (resp : Response) (db' : Database) :
  data request = JArr items →
  SequentialBulkCreatesMixin.create self request db = (inr resp, db') →
  ∃ rep, last (representations resp) = Some rep
         ∧ headers resp = get_success_headers self rep.
Proof.
  intros Hdata Hrun. unfold SequentialBulkCreatesMixin.create in Hrun.
  rewrite Hdata in Hrun. apply (proj1 (atomic_commits _ _ _ _)) in Hrun.
  apply bind_inr_inv in Hrun as (st & db1 & Hloop & Hend).
  pose proof (create_loop_last self items (None, []) db st db1
                (λ ser (H : None = Some ser), match H with end)) as Hlast.
  destruct st as [[serializer|] return_data]; simpl in *; [|discriminate].
  injection Hend as <- <-.
  exists (serializer_data self serializer). split; [|done].
  unfold representations; simpl. by apply (Hlast Hloop).
Qed.

Lemma create_headers_of_last_witness :
  ∃ resp db',
    SequentialBulkCreatesMixin.create TenantView.view
      (TenantView.request "POST" []
         (JArr [JObj [("slug", JStr "hooli"); ("url", JStr "/api/tenancy/tenants/3/")];
                JObj [("slug", JStr "piedpiper"); ("url", JStr "/api/tenancy/tenants/4/")]]))
      TenantView.db0 = (inr resp, db')
    ∧ headers resp = [("Location", "/api/tenancy/tenants/4/")].
Proof.
  eexists _, _. split; [vm_compute; reflexivity|].
  destruct (create_headers_of_last TenantView.view
              (TenantView.request "POST" []
                 (JArr [JObj [("slug", JStr "hooli"); ("url", JStr "/api/tenancy/tenants/3/")];
                        JObj [("slug", JStr "piedpiper");
                              ("url", JStr "/api/tenancy/tenants/4/")]]))
              _ TenantView.db0 _ _ eq_refl eq_refl) as (rep & Hrep & Hheaders).
  injection Hrep as <-. exact Hheaders.
Defined.

(** ** Conformance checks *)

(** X8: [_validate_objects] only reads: whatever it is given it leaves the
    database as it was, and it either returns or raises ObjectDoesNotExist,
    never another error. *)
Theorem validate_objects_read_only (self : ViewSet) (instance : Instance + list Instance)
    (db : Database) :
  ObjectValidationMixin._validate_objects self instance db = (inr (), db)
  ∨ ObjectValidationMixin._validate_objects self instance db = (inl ObjectDoesNotExist, db).
Proof.
  unfold ObjectValidationMixin._validate_objects.
  destruct instance as [obj|instances]; rewrite bind_run; simpl.
  - destruct (qs_rows _ db); simpl; auto.
  - case_bool_decide; auto.
Qed.

Lemma qs_rows_pk__in_ext qs ids ids' db :
  (∀ id, id ∈ ids ↔ id ∈ ids') →
  qs_rows (qs_filter qs (pk__in ids)) db = qs_rows (qs_filter qs (pk__in ids')) db.
Proof.
  intros Hsame. rewrite !qs_rows_filter. apply list_filter_iff. intros obj. simpl.
  by rewrite !bool_decide_spec.
Qed.

(** X9: the verdict on a list of instances depends on nothing but their
    primary keys, in whatever order: two lists whose pks are the same up to
    order get the same result; and the empty list always conforms. *)
Theorem validate_objects_by_pks (self : ViewSet) (instances instances' : list Instance)
    (db : Database) :
  (pk <$> instances ≡ₚ pk <$> instances' →
   ObjectValidationMixin._validate_objects self (inr instances) db
   = ObjectValidationMixin._validate_objects self (inr instances') db)
  ∧ ObjectValidationMixin._validate_objects self (inr []) db = (inr (), db).
Proof.
  split.
  - intros Hperm. unfold ObjectValidationMixin._validate_objects.
    rewrite !bind_run. simpl.
    rewrite (qs_rows_pk__in_ext _ (pk <$> instances) (pk <$> instances'))
      by (intros id; by rewrite Hperm).
    pose proof (Permutation_length Hperm) as Hlen. rewrite !length_fmap in Hlen.
    by rewrite Hlen.
  - unfold ObjectValidationMixin._validate_objects. rewrite bind_run. simpl.
    rewrite (qs_rows_no_match (queryset self) [] db); [done|].
    intros id Hid. by apply elem_of_nil in Hid.
Qed.

Lemma validate_objects_by_pks_witness :
  ObjectValidationMixin._validate_objects TenantView.restricted_view
    (inr [TenantView.tenant 2 "Initech" "initech"; TenantView.tenant 1 "Acme" "acme"])
    TenantView.db0
  = ObjectValidationMixin._validate_objects TenantView.restricted_view
      (inr [TenantView.tenant 1 "" ""; TenantView.tenant 2 "" ""]) TenantView.db0.
Proof.
  apply (proj1 (validate_objects_by_pks TenantView.restricted_view
                  [TenantView.tenant 2 "Initech" "initech"; TenantView.tenant 1 "Acme" "acme"]
                  [TenantView.tenant 1 "" ""; TenantView.tenant 2 "" ""] TenantView.db0)).
  apply perm_swap.
Defined.

(** X10: with unique primary keys, checking a list of one instance is
    checking that instance: the two branches of [_validate_objects] agree. *)
Theorem validate_objects_singleton (self : ViewSet) (obj : Instance) (db : Database) :
  pk_unique db →
  ObjectValidationMixin._validate_objects self (inr [obj]) db
  = ObjectValidationMixin._validate_objects self (inl obj) db.
Proof.
  intros Huniq. unfold ObjectValidationMixin._validate_objects.
  rewrite !bind_run. simpl.
  assert (Hsame : qs_rows (qs_filter (queryset self) (pk__in [pk obj])) db
                  = qs_rows (qs_filter (queryset self) (pk_exact (pk obj))) db).
  { rewrite !qs_rows_filter. apply list_filter_iff. intros row. simpl.
    rewrite !bool_decide_spec, list_elem_of_singleton. done. }
  rewrite Hsame.
  pose proof (qs_rows_pk_NoDup (qs_filter (queryset self) (pk_exact (pk obj))) db Huniq)
    as Hnodup.
  destruct (qs_rows (qs_filter (queryset self) (pk_exact (pk obj))) db)
    as [|row [|row' rows]] eqn:Hrows; [done|done|].
  exfalso.
  assert (Hpk : ∀ r, r ∈ row :: row' :: rows → pk r = pk obj).
  { intros r Hr. rewrite <- Hrows, qs_rows_filter in Hr.
    apply list_elem_of_filter in Hr as [Hr _]. simpl in Hr.
    by apply bool_decide_spec in Hr. }
  rewrite !fmap_cons in Hnodup. apply NoDup_cons in Hnodup as [Hfresh _].
  apply Hfresh. rewrite (Hpk row) by left. rewrite <- (Hpk row') by (right; left). left.
Qed.

Lemma validate_objects_singleton_witness :
  ObjectValidationMixin._validate_objects TenantView.restricted_view
    (inr [TenantView.tenant 2 "Initech" "initech"]) TenantView.db0
  = ObjectValidationMixin._validate_objects TenantView.restricted_view
      (inl (TenantView.tenant 2 "Initech" "initech")) TenantView.db0.
Proof.
  exact (validate_objects_singleton TenantView.restricted_view
           (TenantView.tenant 2 "Initech" "initech") TenantView.db0 db0_pk_unique).
Defined.

(** ** Brief mode outside its requests, and the rows it lists *)

(** X11: a request that is not a GET is never served in brief mode, whatever
    its query string: after [initialize_request] the serializer class is the
    full one, [get_queryset] is the queryset of the view with all its
    annotations and prefetches, and so are the querysets of the bulk update
    and the bulk destroy. *)
Theorem non_get_requests_are_not_brief (self : ViewSet) (request : Request) :
  method request ≠ "GET" →
  let self' := BriefModeMixin.initialize_request self request in
  BriefModeMixin.get_serializer_class self' = serializer_class self
  ∧ BriefModeMixin.get_queryset self' = queryset self
  ∧ BulkUpdateModelMixin.get_bulk_update_queryset self' = queryset self
  ∧ BulkDestroyModelMixin.get_bulk_destroy_queryset self' = queryset self
  ∧ ∀ obj d partial, serializer_cls (get_serializer self' obj d partial) = serializer_class self.
Proof.
  intros Hmethod self'.
  assert (Hbrief : brief self' = PyFalse).
  { unfold self', BriefModeMixin.initialize_request; simpl.
    by apply String.eqb_neq in Hmethod as ->. }
  unfold BulkUpdateModelMixin.get_bulk_update_queryset,
    BulkDestroyModelMixin.get_bulk_destroy_queryset, get_serializer,
    BriefModeMixin.get_queryset, BriefModeMixin.get_serializer_class.
  rewrite Hbrief. simpl. done.
Qed.

Lemma non_get_requests_are_not_brief_witness :
  BriefModeMixin.get_queryset
    (BriefModeMixin.initialize_request TenantView.view
       (TenantView.request "PATCH" [("brief", "true")] JNull))
  = TenantView.tenants.
Proof.
  apply (non_get_requests_are_not_brief TenantView.view
           (TenantView.request "PATCH" [("brief", "true")] JNull)).
  discriminate.
Defined.

(** X12: brief mode changes what is fetched about the rows, never which rows
    are listed: [get_queryset] yields the same rows as the queryset of the
    view, in brief mode or not. *)
Theorem brief_lists_the_same_rows (self : ViewSet) (db : Database) :
  qs_rows (BriefModeMixin.get_queryset self) db = qs_rows (queryset self) db.
Proof.
  unfold BriefModeMixin.get_queryset.
  destruct (truthy (brief self)); [|done].
  unfold qs_rows, qs_matches, prefetch_related; cbn [where_].
  by destruct (clear_loop_frame (fields (BriefModeMixin.get_serializer_class self))
                 (BriefModeMixin.annotation_keys (queryset self)) (queryset self))
    as (_ & -> & _).
Qed.

(** ** Export templates of the same name *)

Lemma querydict_get_contains k (q : QueryDict) v :
  querydict_get k q = Some v → querydict_contains k q = true.
Proof.
  unfold querydict_contains, querydict_get. intros Hget.
  destruct (existsb (λ kv, String.eqb k kv.1) q) eqn:Hin; [done|].
  assert (Hnil : omap (λ kv : string * string,
                         if String.eqb k kv.1 then Some kv.2 else None) q = []).
  { clear Hget. induction q as [|kv q IH]; [done|]. simpl in *.
    apply orb_false_iff in Hin as [-> Hin]. by apply IH. }
  by rewrite Hnil in Hget.
Qed.

(** X13: when several export templates of the content type carry the
    requested name, the list is rendered by the first of them in table
    order. *)
Theorem export_uses_first_template (self : ViewSet) (request : Request) (db : Database)
    (name : string) (before after : list ExportTemplate) (et : ExportTemplate) :
  let content_type := get_for_model (Meta_model (BriefModeMixin.get_serializer_class self)) in
  let bound et := content_type ∈ et_content_types et ∧ et_name et = name in
  querydict_get "export" (GET request) = Some name →
  export_templates db = before ++ et :: after →
  Forall (λ et', ¬ bound et') before →
  bound et →
  ExportTemplatesMixin.list self request db
  = render_to_response self et (filter_queryset self (BriefModeMixin.get_queryset self)) db.
Proof.
  intros content_type bound Hname Htable Hbefore Hbound.
  unfold ExportTemplatesMixin.list.
  rewrite (querydict_get_contains _ _ _ Hname), Hname, bind_run.
  unfold ExportTemplatesMixin.first_export_template. fold content_type.
  rewrite Htable, filter_app.
  assert (Hnone : filter (λ et0, content_type ∈ et_content_types et0 ∧ et_name et0 = name)
                    before = []).
  { clear Htable. induction Hbefore as [|et' before Het' _ IH]; [done|].
    by rewrite filter_cons_False. }
  rewrite Hnone, filter_cons_True by done. done.
Qed.

(** Two templates named [csv] are bound to tenants; the first one renders. *)
Lemma export_uses_first_template_witness :
  let csv code := {| et_name := "csv"; et_content_types := [("tenancy", "tenant")];
                     et_template_code := code |} in
  let db := {| objects := objects TenantView.db0;
               export_templates :=
                 [{| et_name := "racks"; et_content_types := [("dcim", "rack")];
                     et_template_code := "rack" |};
                  csv "name,slug"; csv "slug,name"] |} in
  ExportTemplatesMixin.list TenantView.view
    (TenantView.request "GET" [("export", "csv")] JNull) db
  = (inr {| status := 200; content := Some (JStr "name,slug");
            headers := [("Content-Type", "text/plain")] |}, db).
Proof.
  intros csv db.
  apply (export_uses_first_template TenantView.view
           (TenantView.request "GET" [("export", "csv")] JNull) db "csv"
           [{| et_name := "racks"; et_content_types := [("dcim", "rack")];
               et_template_code := "rack" |}]
           [csv "slug,name"] (csv "name,slug") eq_refl eq_refl).
  - constructor; [|constructor]. intros [_ Hname]. discriminate.
  - split; [|reflexivity]. refine (bool_decide_unpack _ _). by vm_compute.
Defined.

(** ** The serializer context *)

(** X14: [get_serializer_context] keeps every entry the generic view put in
    the context; for a model with custom fields it sets [custom_fields] to
    the custom fields of the content type of the model, replacing an entry
    of that name, and for any other model it returns the context of the
    generic view as it is. *)
Theorem custom_fields_context (hasattr_custom_fields : Model → bool)
    (super_context : gmap string ContextValue) (self : ViewSet) :
  let context :=
    CustomFieldsMixin.get_serializer_context hasattr_custom_fields super_context self in
  (∀ key, key ≠ "custom_fields" → context !! key = super_context !! key)
  ∧ (hasattr_custom_fields (model (queryset self)) = true →
       context !! "custom_fields"
       = Some (custom_fields_all (get_for_model (model (queryset self))))
       ∧ dom context = {["custom_fields"]} ∪ dom super_context)
  ∧ (hasattr_custom_fields (model (queryset self)) = false → context = super_context).
Proof.
  intros context. unfold context, CustomFieldsMixin.get_serializer_context.
  destruct (hasattr_custom_fields (model (queryset self))).
  - split; [|split; [|done]].
    + intros key Hkey. by rewrite lookup_insert_ne.
    + intros _. split; [by rewrite lookup_insert_eq|]. by rewrite dom_insert_L.
  - split; [done|]. split; [discriminate|done].
Qed.

Lemma custom_fields_context_witness :
  CustomFieldsMixin.get_serializer_context (λ m, String.eqb (app_label m) "tenancy")
    {[ "request" := context_value "GET /api/tenancy/tenants/";
       "view" := context_value "TenantViewSet" ]} TenantView.view
  !! "custom_fields" = Some (custom_fields_all ("tenancy", "tenant")).
Proof.
  apply (custom_fields_context (λ m, String.eqb (app_label m) "tenancy")
           {[ "request" := context_value "GET /api/tenancy/tenants/";
              "view" := context_value "TenantViewSet" ]} TenantView.view).
  reflexivity.
Defined.

(** ** The tenancy serializers *)

(** X15: in both tenancy serializers the listed fields are pairwise
    distinct, every field declared in the class body is listed, and every
    listed field whose name ends in [_count] is declared as a read-only
    integer field. *)
Theorem tenancy_serializers_fields (sc : SerializerClass) (declared : list DeclaredField) :
  (sc, declared) ∈ [(TenantGroupSerializer, TenantGroupSerializer_declared);
                    (TenantSerializer, TenantSerializer_declared)] →
  NoDup (Meta_fields sc)
  ∧ Forall (λ f, field_name f ∈ Meta_fields sc) declared
  ∧ ∀ name, name ∈ Meta_fields sc → is_count_field name = true →
      ∃ f, f ∈ declared ∧ field_name f = name
           ∧ field_class f = "IntegerField" ∧ declared_read_only f = true.
Proof.
  intros Hsc. apply list_elem_of_In in Hsc. simpl in Hsc.
  destruct Hsc as [[= <- <-]|[[= <- <-]|[]]].
  all: split; [refine (bool_decide_unpack _ _); by vm_compute|].
  all: split; [refine (bool_decide_unpack _ _); by vm_compute|].
  all: intros name Hname Hcount; apply list_elem_of_In in Hname; simpl in Hname.
  all: repeat (destruct Hname as [<-|Hname];
               [vm_compute in Hcount;
                first [ discriminate Hcount
                      | match goal with
                        | |- ∃ f, _ ∧ field_name f = ?n ∧ _ => exists (count_field n)
                        end;
                        split; [|by repeat split];
                        apply list_elem_of_In; simpl;
                        repeat (first [left; reflexivity | right]) ]|]).
  all: by destruct Hname.
Qed.

Lemma tenancy_serializers_fields_witness :
  ∃ f, f ∈ TenantSerializer_declared ∧ field_name f = "vrf_count"
       ∧ field_class f = "IntegerField" ∧ declared_read_only f = true.
Proof.
  refine (proj2 (proj2 (tenancy_serializers_fields TenantSerializer TenantSerializer_declared _))
            "vrf_count" _ eq_refl).
  - right. left.
  - refine (bool_decide_unpack _ _). by vm_compute.
Defined.

(** ** The first failure ends a bulk request *)

Lemma for_each_app {A S} (xs ys : list A) (f : S → A → M S) : ∀ acc db,
  for_each (xs ++ ys) acc f db
  = match for_each xs acc f db with
    | (inl e, db') => (inl e, db')
    | (inr acc', db') => for_each ys acc' f db'
    end.
Proof.
  induction xs as [|x xs IH]; intros acc db; [done|].
  simpl. rewrite !bind_run. destruct (f acc x db) as [[e|acc1] db1]; [done|].
  apply IH.
Qed.

Lemma for_each_fails_at {A S} (xs ys : list A) (x : A) (f : S → A → M S)
    acc db acc1 db1 e db2 :
  for_each xs acc f db = (inr acc1, db1) →
  f acc1 x db1 = (inl e, db2) →
  for_each (xs ++ x :: ys) acc f db = (inl e, db2).
Proof.
  intros Hxs Hx. rewrite for_each_app, Hxs. simpl. by rewrite bind_run, Hx.
Qed.

(** X16: a bulk update stops at the first row, in queryset order, whose
    validation or saving raises: if the rows before it are updated in turn
    and it then fails, the request raises that very exception, the rows
    after it are not looked at, and the database is as before the
    request. *)
Theorem bulk_update_first_failure (self : ViewSet) (request : Request) (partial : bool)
    (db : Database) (ids : list Z) (update_data : gmap Z json)
    (before after : list Instance) (obj : Instance) (reps : list json)
    (db1 db2 : Database) (e : exn) :
  let qs := qs_filter (BulkUpdateModelMixin.get_bulk_update_queryset self) (pk__in ids) in
  let serializer :=
    get_serializer self (Some (snapshotted qs obj)) (update_data !! pk obj) partial in
  BulkOperationSerializer (data request) = inr ids →
  BulkUpdateModelMixin.map_update_data (data request) = inr update_data →
  qs_rows qs db = before ++ obj :: after →
  updates_in_order self qs update_data partial db before reps db1 →
  (is_valid self serializer db1 = (inl e, db2)
   ∨ ∃ ser1 dbv, is_valid self serializer db1 = (inr ser1, dbv)
                 ∧ perform_update self ser1 dbv = (inl e, db2)) →
  BulkUpdateModelMixin.bulk_update self request partial db = (inl e, db).
Proof.
  intros qs serializer Hids Hmap Hrows Hbefore Hfail.
  unfold BulkUpdateModelMixin.bulk_update.
  rewrite bind_run, lift_run, Hids, bind_run, lift_run, Hmap, bind_run.
  fold qs. unfold BulkUpdateModelMixin.perform_bulk_update, atomic.
  rewrite bind_run. unfold qs_iter. rewrite Hrows.
  assert (Hloop : for_each before []
            (BulkUpdateModelMixin.update_one self qs update_data partial) db
            = (inr reps, db1)).
  { apply update_loop_inr. by exists reps. }
  rewrite (for_each_fails_at before after obj _ [] db reps db1 e db2 Hloop); [done|].
  unfold BulkUpdateModelMixin.update_one. rewrite bind_run.
  fold (snapshotted qs obj). fold serializer.
  destruct Hfail as [->|(ser1 & dbv & -> & Hupdate)]; [done|].
  by rewrite bind_run, Hupdate.
Qed.

Lemma bulk_update_first_failure_witness :
  BulkUpdateModelMixin.bulk_update TenantView.view clashing_patch true TenantView.db0
  = (inl (ValidationError "slug: tenant with this slug already exists."), TenantView.db0).
Proof.
  pose (ud := {[ 1%Z := JObj [("slug", JStr "umbrella")];
                 2%Z := JObj [("slug", JStr "umbrella")] ]} : gmap Z json).
  pose (qs := qs_filter (BulkUpdateModelMixin.get_bulk_update_queryset TenantView.view)
                (pk__in [1%Z; 2%Z])).
  pose (acme := TenantView.tenant 1 "Acme" "acme").
  pose (ser := get_serializer TenantView.view (Some (snapshotted qs acme)) (ud !! 1%Z) true).
  pose (acme' := {| pk := 1; attrs := [("slug", JStr "umbrella"); ("name", JStr "Acme")];
                    prechange_snapshot := Some (attrs acme) |}).
  pose (db1 := {| objects := [{| pk := 1; attrs := attrs acme'; prechange_snapshot := None |};
                              TenantView.tenant 2 "Initech" "initech"];
                  export_templates := export_templates TenantView.db0 |}).
  refine (bulk_update_first_failure TenantView.view clashing_patch true TenantView.db0
            [1%Z; 2%Z] ud [acme] [] (TenantView.tenant 2 "Initech" "initech")
            [TenantView.tenant_serializer_data (TenantView.with_instance ser acme')]
            db1 db1 _ eq_refl _ eq_refl _ _).
  - vm_compute. reflexivity.
  - refine (updates_cons TenantView.view qs ud true TenantView.db0 acme [] ser TenantView.db0
              (TenantView.with_instance ser acme') db1 [] db1 _ _ _).
    + vm_compute. reflexivity.
    + vm_compute. reflexivity.
    + constructor.
  - left. vm_compute. reflexivity.
Defined.

(** X17: a sequential bulk creation stops at the first payload, in list
    order, whose validation or saving raises: if the payloads before it are
    created in turn and it then fails, the request raises that very
    exception and none of the objects created before it is kept. *)
Theorem create_first_failure (self : ViewSet) (request : Request) (db : Database)
    (before after : list json) (d : json) (reps : list json)
    (db1 db2 : Database) (e : exn) :
  let serializer := get_serializer self None (Some d) false in
  data request = JArr (before ++ d :: after) →
  creates_in_order self db before reps db1 →
  (is_valid self serializer db1 = (inl e, db2)
   ∨ ∃ ser1 dbv, is_valid self serializer db1 = (inr ser1, dbv)
                 ∧ perform_create self ser1 dbv = (inl e, db2)) →
  SequentialBulkCreatesMixin.create self request db = (inl e, db).
Proof.
  intros serializer Hdata Hbefore Hfail.
  unfold SequentialBulkCreatesMixin.create, atomic. rewrite Hdata, bind_run.
  destruct (create_loop_complete self before (None, []) db reps db1 Hbefore)
    as (l & Hloop & _).
  rewrite (for_each_fails_at before after d _ (None, []) db _ db1 e db2 Hloop); [done|].
  unfold SequentialBulkCreatesMixin.create_one. rewrite bind_run. fold serializer.
  destruct Hfail as [->|(ser1 & dbv & -> & Hcreate)]; [done|].
  by rewrite bind_run, Hcreate.
Qed.

Lemma create_first_failure_witness :
  SequentialBulkCreatesMixin.create TenantView.view
    (TenantView.request "POST" []
       (JArr [JObj [("name", JStr "Hooli"); ("slug", JStr "hooli")];
              JObj [("name", JStr "Hooli 2"); ("slug", JStr "hooli")];
              JObj [("name", JStr "Pied Piper"); ("slug", JStr "piedpiper")]]))
    TenantView.db0
  = (inl (ValidationError "slug: tenant with this slug already exists."), TenantView.db0).
Proof.
  pose (d1 := JObj [("name", JStr "Hooli"); ("slug", JStr "hooli")]).
  pose (ser := get_serializer TenantView.view None (Some d1) false).
  pose (db1 := {| objects := objects TenantView.db0 ++ [TenantView.tenant 3 "Hooli" "hooli"];
                  export_templates := export_templates TenantView.db0 |}).
  refine (create_first_failure TenantView.view
            (TenantView.request "POST" []
               (JArr [JObj [("name", JStr "Hooli"); ("slug", JStr "hooli")];
                      JObj [("name", JStr "Hooli 2"); ("slug", JStr "hooli")];
                      JObj [("name", JStr "Pied Piper"); ("slug", JStr "piedpiper")]]))
            TenantView.db0 [d1]
            [JObj [("name", JStr "Pied Piper"); ("slug", JStr "piedpiper")]]
            (JObj [("name", JStr "Hooli 2"); ("slug", JStr "hooli")])
            [TenantView.tenant_serializer_data
               (TenantView.with_instance ser (TenantView.tenant 3 "Hooli" "hooli"))]
            db1 db1 _ eq_refl _ _).
  - refine (creates_cons TenantView.view TenantView.db0 d1 [] ser TenantView.db0
              (TenantView.with_instance ser (TenantView.tenant 3 "Hooli" "hooli")) db1
              [] db1 eq_refl eq_refl _).
    constructor.
  - left. reflexivity.
Defined.
